(** * BL808 watchdog driver (drivers/watchdog/bflb_wdt.c)

    A shallow embedding of the driver's register protocol and of the five
    watchdog operations, with the properties of its specification.

    Integers are [Z] with the C conversions written out ([to_u32], [to_u16]).
    The register block is a store of 32-bit cells at the (4-aligned) offsets
    the driver uses; the 16-bit accessors [readw]/[writew] touch the low half
    of a cell (little-endian), the 32-bit ones the whole cell.  Every access
    is also recorded, in program order, in an I/O trace, and every
    [dev_dbg]/[dev_warn]/[dev_info] call in a log. *)

From Stdlib Require Import ZArith List String Bool Lia.
Import ListNotations.
Open Scope Z_scope.

(** ** Constants (the #define block) *)

Definition BFLB_INT_TICKS_PER_SEC : Z := 1024.
Definition BFLB_TICK_DIV : Z := 256.
Definition BFLB_TICKS_PER_SEC : Z := BFLB_INT_TICKS_PER_SEC / BFLB_TICK_DIV.
Definition BFLB_MAX_SECS : Z := 65535 / BFLB_TICKS_PER_SEC.

Definition BFLB_DEFAULT_TIMEOUT : Z := 60.

Definition BFLB_REG_WFAR : Z := 0x9C.
Definition BFLB_VAL_WFAR : Z := 0xBABA.

Definition BFLB_REG_WSAR : Z := 0xA0.
Definition BFLB_VAL_WSAR : Z := 0xEB10.

Definition BFLB_REG_WVR : Z := 0x6C.
Definition BFLB_REG_WCR : Z := 0x98.
Definition BFLB_VAL_WCR : Z := 0x1.

Definition BFLB_REG_WMER : Z := 0x64.
Definition BFLB_VAL_WE : Z := 0x1.
Definition BFLB_VAL_WRIE : Z := 0x2.

Definition BFLB_REG_TCCR : Z := 0x00.
Definition BFLB_MASK_CS_WDT : Z := 0xF00.
Definition BFLB_VAL_CS_1K : Z := 0x200.

Definition BFLB_REG_TCDR : Z := 0xbc.
Definition BFLB_MASK_TCDR : Z := 0xFF000000.
Definition BFLB_VAL_TCDR : Z := 0xFF000000.

Definition BFLB_REG_WMR : Z := 0x68.
Definition BFLB_MASK_WMR : Z := 0xffff.
Definition BFLB_VAL_WMR : Z := 240.

Definition ENOMEM : Z := 12.

(** ** C integer conversions *)

(** Conversion to [unsigned int] / [uint32_t]. *)
Definition to_u32 (x : Z) : Z := x mod 2 ^ 32.

(** Conversion to [u16] (the value type of [writew], the result of [readw]). *)
Definition to_u16 (x : Z) : Z := x mod 2 ^ 16.

(** ** Data model *)

(** The fields of [struct watchdog_device] the driver uses. *)
Inductive wdog_status_bit : Type :=
| WDOG_NO_WAY_OUT
| WDOG_STOP_ON_REBOOT
| WDOG_STOP_ON_UNREGISTER.

Record watchdog_device : Type := mk_wdd {
  timeout : Z;
  min_timeout : Z;
  max_timeout : Z;
  status : list wdog_status_bit
}.

(** The memory-mapped register block behind [void __iomem *regs]. *)
Definition regfile : Type := Z -> Z.

Record bflb_watchdog_device : Type := mk_bflb {
  wdd : watchdog_device;
  regs : regfile
}.

Inductive io_width : Type := W16 | W32.

Inductive io_event : Type :=
| IoRead (w : io_width) (off : Z) (v : Z)
| IoWrite (w : io_width) (off : Z) (v : Z).

Inductive log_level : Type := LDbg | LInfo | LWarn.

Record log_entry : Type := mk_log {
  level : log_level;
  fmt : string;
  args : list Z
}.

(** The driver's world: its device structure, the accesses it has made to the
    register block (oldest first) and what it has logged (oldest first). *)
Record state : Type := mk_state {
  bflb_wdd : bflb_watchdog_device;
  io : list io_event;
  klog : list log_entry
}.

(** ** A state monad for the driver's code *)

Definition M (A : Type) : Type := state -> A * state.

Definition ret {A} (a : A) : M A := fun s => (a, s).

Definition bind {A B} (m : M A) (k : A -> M B) : M B :=
  fun s => let (a, s') := m s in k a s'.

Declare Scope drv_scope.
Delimit Scope drv_scope with drv.
Notation "x <- m ;; k" := (bind m (fun x => k))
  (at level 61, m at next level, right associativity) : drv_scope.
Notation "m ;; k" := (bind m (fun _ => k))
  (at level 61, right associativity) : drv_scope.
Open Scope drv_scope.

Definition exec {A} (m : M A) (s : state) : state := snd (m s).
Definition result {A} (m : M A) (s : state) : A := fst (m s).

(** The events an operation adds to the I/O trace when run from [s]. *)
Definition emitted {A} (m : M A) (s : state) : list io_event :=
  skipn (List.length (io s)) (io (exec m s)).

Definition get_wdd : M watchdog_device := fun s => (wdd (bflb_wdd s), s).

Definition set_wdd (w : watchdog_device) : M unit :=
  fun s => (tt, mk_state (mk_bflb w (regs (bflb_wdd s))) (io s) (klog s)).

Definition log (l : log_level) (f : string) (a : list Z) : M unit :=
  fun s => (tt, mk_state (bflb_wdd s) (io s) (klog s ++ [mk_log l f a])).

Definition dev_dbg := log LDbg.
Definition dev_info := log LInfo.
Definition dev_warn := log LWarn.

(** ** Register accessors *)

Definition upd (r : regfile) (off v : Z) : regfile :=
  fun o => if Z.eqb o off then v else r o.

Definition peekl (r : regfile) (off : Z) : Z := to_u32 (r off).
Definition peekw (r : regfile) (off : Z) : Z := to_u16 (r off).

Definition pokel (r : regfile) (off v : Z) : regfile := upd r off (to_u32 v).
Definition pokew (r : regfile) (off v : Z) : regfile :=
  upd r off (Z.lor (Z.land (peekl r off) 0xFFFF0000) (to_u16 v)).

Definition readl (off : Z) : M Z := fun s =>
  let v := peekl (regs (bflb_wdd s)) off in
  (v, mk_state (bflb_wdd s) (io s ++ [IoRead W32 off v]) (klog s)).

Definition readw (off : Z) : M Z := fun s =>
  let v := peekw (regs (bflb_wdd s)) off in
  (v, mk_state (bflb_wdd s) (io s ++ [IoRead W16 off v]) (klog s)).

Definition writel (v off : Z) : M unit := fun s =>
  (tt, mk_state (mk_bflb (wdd (bflb_wdd s)) (pokel (regs (bflb_wdd s)) off v))
                (io s ++ [IoWrite W32 off (to_u32 v)]) (klog s)).

Definition writew (v off : Z) : M unit := fun s =>
  (tt, mk_state (mk_bflb (wdd (bflb_wdd s)) (pokew (regs (bflb_wdd s)) off v))
                (io s ++ [IoWrite W16 off (to_u16 v)]) (klog s)).

(** ** The driver *)

Definition bflb_unlock_watchdog : M Z :=
  writew BFLB_VAL_WFAR BFLB_REG_WFAR ;;
  writew BFLB_VAL_WSAR BFLB_REG_WSAR ;;
  ret 0.

Definition bflb_wdt_ping : M Z :=
  dev_dbg "bflb_wdt_ping" [] ;;
  bflb_unlock_watchdog ;;
  reg_val <- readl BFLB_REG_WCR ;;
  let reg_val := to_u32 (Z.lor reg_val BFLB_VAL_WCR) in
  writel reg_val BFLB_REG_WCR ;;
  ret 0.

Definition bflb_wdt_update_timeout_reg : M unit :=
  bflb_unlock_watchdog ;;
  w <- get_wdd ;;
  let timeout_ticks := to_u32 (timeout w * BFLB_TICKS_PER_SEC) in
  writew timeout_ticks BFLB_REG_WMR.

Definition bflb_wdt_set_timeout (timeout : Z) : M Z :=
  w <- get_wdd ;;
  timeout <- (if timeout >=? max_timeout w
              then dev_warn "timeout %i > max_timeout %i, using max_timeout..."
                            [timeout; max_timeout w] ;;
                   ret (max_timeout w)
              else ret timeout) ;;
  set_wdd (mk_wdd timeout (min_timeout w) (max_timeout w) (status w)) ;;
  bflb_wdt_update_timeout_reg ;;
  dev_dbg "bflb_wdt_set_timeout (s=%i tps=%i)" [timeout; BFLB_TICKS_PER_SEC] ;;
  ret 0.

Definition bflb_wdt_start : M Z :=
  bflb_unlock_watchdog ;;
  reg_val <- readl BFLB_REG_WMER ;;
  let reg_val := to_u32 (Z.lor reg_val BFLB_VAL_WE) in
  writel reg_val BFLB_REG_WMER ;;
  dev_info "bflb_wdt_start started..." [] ;;
  ret 0.

Definition bflb_wdt_stop : M Z :=
  bflb_unlock_watchdog ;;
  reg_val <- readl BFLB_REG_WMER ;;
  let reg_val := to_u32 (Z.land reg_val (to_u32 (Z.lnot BFLB_VAL_WE))) in
  writel reg_val BFLB_REG_WMER ;;
  dev_info "bflb_wdt_stopped..." [] ;;
  ret 0.

Definition bflb_wdt_timeleft : M Z :=
  ticks <- readw BFLB_REG_WVR ;;
  w <- get_wdd ;;
  let used_seconds := to_u32 (ticks / BFLB_TICKS_PER_SEC) in
  let remaining_seconds := to_u32 (max_timeout w - used_seconds) in
  dev_dbg "bflb_wdt_time left %i (elapsed tick %i, sec %i)"
          [remaining_seconds; ticks; used_seconds] ;;
  ret remaining_seconds.

(** *** Probe *)

(** What the platform hands to [bflb_wdt_probe]: whether [devm_kzalloc]
    succeeds, the error of [devm_ioremap_resource] if it fails, the build's
    [WATCHDOG_NOWAYOUT] and the result of [devm_watchdog_register_device]. *)
Record platform_device : Type := mk_pdev {
  kzalloc_ok : bool;
  ioremap_err : option Z;
  nowayout : bool;
  register_err : Z
}.

(** [devm_kzalloc] returns zeroed memory. *)
Definition wdd_zero : watchdog_device := mk_wdd 0 0 0 [].

(** Modelled from the spec: the stop-on-reboot and stop-on-unregister hooks
    and the nowayout policy belong to the generic watchdog subsystem, which is
    not part of the driver file; each call only records a flag in the
    device's status. *)
Definition set_status_bit (b : wdog_status_bit) : M unit :=
  w <- get_wdd ;;
  set_wdd (mk_wdd (timeout w) (min_timeout w) (max_timeout w) (b :: status w)).

Definition watchdog_stop_on_reboot : M unit := set_status_bit WDOG_STOP_ON_REBOOT.
Definition watchdog_stop_on_unregister : M unit :=
  set_status_bit WDOG_STOP_ON_UNREGISTER.
Definition watchdog_set_nowayout (b : bool) : M unit :=
  if b then set_status_bit WDOG_NO_WAY_OUT else ret tt.

(** Modelled from the spec: [watchdog_init_timeout] belongs to the generic
    watchdog subsystem, which is not part of the driver file; the
    specification says that initialization clamps the requested default
    timeout into [[min, max]]. *)
Definition watchdog_init_timeout (timeout_parm : Z) : M unit :=
  w <- get_wdd ;;
  set_wdd (mk_wdd (Z.max (min_timeout w) (Z.min timeout_parm (max_timeout w)))
                  (min_timeout w) (max_timeout w) (status w)).

Definition bflb_wdt_probe (pdev : platform_device) : M Z :=
  dev_dbg "bflb_wdt_probe started" [] ;;
  if negb (kzalloc_ok pdev) then ret (- ENOMEM) else
  set_wdd wdd_zero ;;
  match ioremap_err pdev with
  | Some e => ret e
  | None =>
    w <- get_wdd ;;
    set_wdd (mk_wdd BFLB_DEFAULT_TIMEOUT 1 BFLB_MAX_SECS (status w)) ;;
    watchdog_stop_on_reboot ;;
    watchdog_stop_on_unregister ;;
    watchdog_set_nowayout (nowayout pdev) ;;
    watchdog_init_timeout BFLB_DEFAULT_TIMEOUT ;;
    (* Set to reboot on watchdog, disable until we start *)
    bflb_unlock_watchdog ;;
    reg_val <- readl BFLB_REG_WMER ;;
    let reg_val := to_u32 (Z.land reg_val (to_u32 (Z.lnot BFLB_VAL_WE))) in
    let reg_val := to_u32 (Z.lor reg_val BFLB_VAL_WRIE) in
    writel reg_val BFLB_REG_WMER ;;
    (* Set to 1K per second clock *)
    reg_val <- readl BFLB_REG_TCCR ;;
    let reg_val := to_u32 (Z.land reg_val (to_u32 (Z.lnot BFLB_MASK_CS_WDT))) in
    let reg_val := to_u32 (Z.lor reg_val BFLB_VAL_CS_1K) in
    writel reg_val BFLB_REG_TCCR ;;
    (* Max out divider to 255 *)
    reg_val <- readl BFLB_REG_TCDR ;;
    let reg_val := to_u32 (Z.land reg_val (to_u32 (Z.lnot BFLB_MASK_TCDR))) in
    let reg_val := to_u32 (Z.lor reg_val BFLB_VAL_TCDR) in
    writel reg_val BFLB_REG_TCDR ;;
    (* Set last valid timeout value *)
    bflb_wdt_update_timeout_reg ;;
    (* devm_watchdog_register_device; platform_set_drvdata keeps no state here *)
    if negb (register_err pdev =? 0) then ret (register_err pdev) else
    dev_info "bflb_wdt_probe completed..." [] ;;
    ret 0
  end.

(** ** The write-protect discipline *)

Definition is_wfar_key (e : io_event) : bool :=
  match e with
  | IoWrite W16 off v => (off =? BFLB_REG_WFAR) && (v =? BFLB_VAL_WFAR)
  | _ => false
  end.

Definition is_wsar_key (e : io_event) : bool :=
  match e with
  | IoWrite W16 off v => (off =? BFLB_REG_WSAR) && (v =? BFLB_VAL_WSAR)
  | _ => false
  end.

(** [unlocked_now ws]: the two most recent writes ([ws] lists the writes made
    so far, newest first) are the key to WFAR and then the key to WSAR. *)
Definition unlocked_now (ws : list io_event) : bool :=
  match ws with
  | b :: a :: _ => is_wfar_key a && is_wsar_key b
  | _ => false
  end.

(** [fresh_unlock prot ws evs]: in the trace [evs], run after the writes
    [ws], every write to a register of [prot] comes directly after an unlock
    sequence of its own; only reads may stand between the two. *)
Fixpoint fresh_unlock (prot : Z -> bool) (ws evs : list io_event) : bool :=
  match evs with
  | [] => true
  | IoRead _ _ _ :: tl => fresh_unlock prot ws tl
  | IoWrite w off v :: tl =>
      (if prot off then unlocked_now ws else true)
      && fresh_unlock prot (IoWrite w off v :: ws) tl
  end.

(** The writes of a trace, in order. *)
Definition writes_of (evs : list io_event) : list io_event :=
  filter (fun e => match e with IoWrite _ _ _ => true | IoRead _ _ _ => false end) evs.

(** The three watchdog registers the driver writes. *)
Definition wdt_reg (off : Z) : bool :=
  (off =? BFLB_REG_WMER) || (off =? BFLB_REG_WMR) || (off =? BFLB_REG_WCR).

(** The watchdog registers together with the timer's clock-select and
    pre-divider registers. *)
Definition wdt_or_timer_reg (off : Z) : bool :=
  wdt_reg off || (off =? BFLB_REG_TCCR) || (off =? BFLB_REG_TCDR).

(** ** Views of the state *)

Definition reg32 (s : state) (off : Z) : Z := peekl (regs (bflb_wdd s)) off.
Definition reg16 (s : state) (off : Z) : Z := peekw (regs (bflb_wdd s)) off.
Definition cur_timeout (s : state) : Z := timeout (wdd (bflb_wdd s)).
Definition cur_max_timeout (s : state) : Z := max_timeout (wdd (bflb_wdd s)).

(** The messages of level [l] an operation logs when run from [s]. *)
Definition logged {A} (m : M A) (s : state) : list log_entry :=
  skipn (List.length (klog s)) (klog (exec m s)).

Definition is_warn (e : log_entry) : bool :=
  match level e with LWarn => true | _ => false end.

(** ** Names for intermediate results *)

(** The register block after [bflb_unlock_watchdog]. *)
Definition unlocked (r : regfile) : regfile :=
  pokew (pokew r BFLB_REG_WFAR BFLB_VAL_WFAR) BFLB_REG_WSAR BFLB_VAL_WSAR.

Definition unlock_events : list io_event :=
  [IoWrite W16 BFLB_REG_WFAR BFLB_VAL_WFAR; IoWrite W16 BFLB_REG_WSAR BFLB_VAL_WSAR].

(** The values [bflb_wdt_probe] computes for the three registers it sets up,
    from the values it reads. *)
Definition probe_wmer (v : Z) : Z :=
  to_u32 (Z.lor (to_u32 (Z.land v (to_u32 (Z.lnot BFLB_VAL_WE)))) BFLB_VAL_WRIE).
Definition probe_tccr (v : Z) : Z :=
  to_u32 (Z.lor (to_u32 (Z.land v (to_u32 (Z.lnot BFLB_MASK_CS_WDT)))) BFLB_VAL_CS_1K).
Definition probe_tcdr (v : Z) : Z :=
  to_u32 (Z.lor (to_u32 (Z.land v (to_u32 (Z.lnot BFLB_MASK_TCDR)))) BFLB_VAL_TCDR).

Definition probe_status (pdev : platform_device) : list wdog_status_bit :=
  (if nowayout pdev then [WDOG_NO_WAY_OUT] else [])
    ++ [WDOG_STOP_ON_UNREGISTER; WDOG_STOP_ON_REBOOT].

(** ** Sample platform and states *)

(** A register block that reads as zero everywhere. *)
Definition hw_zero : regfile := fun _ => 0.

(** A register block with every bit of every cell set. *)
Definition hw_ones : regfile := fun _ => 0xFFFFFFFF.

(** A register block that reads as zero except for [e] elapsed ticks in the
    counter register. *)
Definition hw_elapsed (e : Z) : regfile := upd hw_zero BFLB_REG_WVR e.

(** The state [s] with another configured timeout. *)
Definition with_timeout (t : Z) (s : state) : state :=
  let w := wdd (bflb_wdd s) in
  mk_state (mk_bflb (mk_wdd t (min_timeout w) (max_timeout w) (status w))
                    (regs (bflb_wdd s)))
           (io s) (klog s).

Definition boot (r : regfile) : state := mk_state (mk_bflb wdd_zero r) [] [].

(** A platform on which every step of the probe succeeds. *)
Definition pdev_ok : platform_device := mk_pdev true None false 0.

Definition probed (r : regfile) : state := exec (bflb_wdt_probe pdev_ok) (boot r).

(** ** The operation table and the rest of the driver *)

(** The entries of [bflb_wdt_ops]: the calls the watchdog core can make. *)
Inductive watchdog_op : Type :=
| op_start
| op_stop
| op_ping
| op_set_timeout (t : Z)
| op_get_timeleft.

Definition bflb_wdt_ops (o : watchdog_op) : M Z :=
  match o with
  | op_start => bflb_wdt_start
  | op_stop => bflb_wdt_stop
  | op_ping => bflb_wdt_ping
  | op_set_timeout t => bflb_wdt_set_timeout t
  | op_get_timeleft => bflb_wdt_timeleft
  end.

(** A sequence of calls through the table, oldest first. *)
Fixpoint run_ops (ops : list watchdog_op) (s : state) : state :=
  match ops with
  | [] => s
  | o :: tl => run_ops tl (exec (bflb_wdt_ops o) s)
  end.

(** The argument of [set_timeout] is an [unsigned int]. *)
Definition op_valid (o : watchdog_op) : Prop :=
  match o with
  | op_set_timeout t => 0 <= t < 2 ^ 32
  | _ => True
  end.

(** The register an entry of the table rewrites, besides the two keys. *)
Definition op_target (o : watchdog_op) : option Z :=
  match o with
  | op_start | op_stop => Some BFLB_REG_WMER
  | op_ping => Some BFLB_REG_WCR
  | op_set_timeout _ => Some BFLB_REG_WMR
  | op_get_timeleft => None
  end.

(** Whether the enable bit is set after the calls [ops], given whether it
    was set before. *)
Fixpoint enabled_after (ops : list watchdog_op) (b : bool) : bool :=
  match ops with
  | [] => b
  | op_start :: tl => enabled_after tl true
  | op_stop :: tl => enabled_after tl false
  | _ :: tl => enabled_after tl b
  end.

Definition bflb_wdt_remove : M Z :=
  dev_info "bflb_wdt_remove removed..." [] ;;
  ret 0.

Definition event_offset (e : io_event) : Z :=
  match e with IoRead _ off _ => off | IoWrite _ off _ => off end.

Definition is_info (e : log_entry) : bool :=
  match level e with LInfo => true | _ => false end.

(** What a successful probe sets up and every later call keeps. *)
Definition wdt_configured (s : state) : Prop :=
  cur_max_timeout s = BFLB_MAX_SECS /\
  min_timeout (wdd (bflb_wdd s)) = 1 /\
  0 <= cur_timeout s <= BFLB_MAX_SECS /\
  reg16 s BFLB_REG_WMR = cur_timeout s * BFLB_TICKS_PER_SEC /\
  Z.testbit (reg32 s BFLB_REG_WMER) 1 = true /\
  Z.land (reg32 s BFLB_REG_TCCR) BFLB_MASK_CS_WDT = BFLB_VAL_CS_1K /\
  Z.land (reg32 s BFLB_REG_TCDR) BFLB_MASK_TCDR = BFLB_VAL_TCDR.

(** The register accesses a sequence of calls adds to the trace. *)
Definition emitted_by_ops (ops : list watchdog_op) (s : state) : list io_event :=
  skipn (List.length (io s)) (io (run_ops ops s)).

(** ** The write-protect discipline, access by access *)

(** Where a trace stands in the key protocol: no key written, the first key
    written, both keys written, or both keys written and the register
    [target] read since. *)
Inductive lock_state : Type :=
| Idle
| GotFirstKey
| Unlocked
| UnlockedRead (target : Z).

(** One access.  Both keys must be written back to back; what follows them is
    a write to a watchdog register, or one read of a watchdog register and
    then the write to that same register; that write uses the unlock up.
    Outside such a sequence reads are free, and a write is accepted only to a
    register of [allow] that is not a watchdog register. *)
Definition lock_step (allow : Z -> bool) (st : lock_state) (e : io_event)
  : option lock_state :=
  match st, e with
  | Idle, IoRead _ _ _ => Some Idle
  | Idle, IoWrite _ off _ =>
      if is_wfar_key e then Some GotFirstKey
      else if allow off && negb (wdt_reg off) then Some Idle
      else None
  | GotFirstKey, _ => if is_wsar_key e then Some Unlocked else None
  | Unlocked, IoRead _ off _ => if wdt_reg off then Some (UnlockedRead off) else None
  | Unlocked, IoWrite _ off _ => if wdt_reg off then Some Idle else None
  | UnlockedRead target, IoWrite _ off _ =>
      if (off =? target) && wdt_reg off then Some Idle else None
  | UnlockedRead _, IoRead _ _ _ => None
  end.

(** The state a trace leads to, if every access is accepted. *)
Fixpoint lock_after (allow : Z -> bool) (st : lock_state) (evs : list io_event)
  : option lock_state :=
  match evs with
  | [] => Some st
  | e :: tl =>
      match lock_step allow st e with
      | Some st' => lock_after allow st' tl
      | None => None
      end
  end.

(** [strict_unlock allow evs]: every access of [evs] is accepted and no
    unlock is left unused at the end. *)
Definition strict_unlock (allow : Z -> bool) (evs : list io_event) : bool :=
  match lock_after allow Idle evs with
  | Some Idle => true
  | _ => false
  end.

(** The accesses that may come directly before a state of the protocol. *)
Definition lock_shape (st : lock_state) (pre : list io_event) : Prop :=
  match st with
  | Idle => True
  | GotFirstKey =>
      exists before, pre = before ++ [IoWrite W16 BFLB_REG_WFAR BFLB_VAL_WFAR]
  | Unlocked => exists before, pre = before ++ unlock_events
  | UnlockedRead target =>
      exists before w v, pre = before ++ unlock_events ++ [IoRead w target v]
  end.

(** No register may be written without an unlock. *)
Definition no_reg (off : Z) : bool := false.

(** The timer's clock-select and pre-divider registers. *)
Definition timer_reg (off : Z) : bool :=
  (off =? BFLB_REG_TCCR) || (off =? BFLB_REG_TCDR).

(** Whether a probe gets as far as the register block. *)
Definition probe_reaches_hardware (pdev : platform_device) : bool :=
  kzalloc_ok pdev && match ioremap_err pdev with None => true | Some _ => false end.

(** ** Stepping the monad *)

Arguments to_u32 : simpl never.
Arguments to_u16 : simpl never.
Arguments peekl : simpl never.
Arguments peekw : simpl never.
Arguments pokel : simpl never.
Arguments pokew : simpl never.

Lemma skipn_length_app {A} (l k : list A) : skipn (List.length l) (l ++ k) = k.
Proof. induction l as [|a l IH]; simpl; [reflexivity | exact IH]. Qed.

Ltac run_monad :=
  unfold bind, ret, dev_dbg, dev_info, dev_warn, log, get_wdd, set_wdd,
    readl, readw, writel, writew; simpl;
  repeat rewrite <- app_assoc; simpl.

Lemma unlock_run (s : state) :
  bflb_unlock_watchdog s =
  (0, mk_state (mk_bflb (wdd (bflb_wdd s)) (unlocked (regs (bflb_wdd s))))
               (io s ++ unlock_events) (klog s)).
Proof. unfold bflb_unlock_watchdog. run_monad. reflexivity. Qed.

Lemma ping_run (s : state) :
  let u := unlocked (regs (bflb_wdd s)) in
  let v := peekl u BFLB_REG_WCR in
  let v' := to_u32 (Z.lor v BFLB_VAL_WCR) in
  bflb_wdt_ping s =
  (0, mk_state (mk_bflb (wdd (bflb_wdd s)) (pokel u BFLB_REG_WCR v'))
               (io s ++ unlock_events ++
                  [IoRead W32 BFLB_REG_WCR v; IoWrite W32 BFLB_REG_WCR (to_u32 v')])
               (klog s ++ [mk_log LDbg "bflb_wdt_ping" []])).
Proof.
  unfold bflb_wdt_ping. unfold bind at 1 2. unfold dev_dbg, log.
  rewrite unlock_run. run_monad. reflexivity.
Qed.

Lemma update_timeout_reg_run (s : state) :
  let u := unlocked (regs (bflb_wdd s)) in
  let ticks := to_u32 (cur_timeout s * BFLB_TICKS_PER_SEC) in
  bflb_wdt_update_timeout_reg s =
  (tt, mk_state (mk_bflb (wdd (bflb_wdd s)) (pokew u BFLB_REG_WMR ticks))
                (io s ++ unlock_events ++ [IoWrite W16 BFLB_REG_WMR (to_u16 ticks)])
                (klog s)).
Proof.
  unfold bflb_wdt_update_timeout_reg. unfold bind at 1.
  rewrite unlock_run. run_monad. reflexivity.
Qed.

Lemma start_run (s : state) :
  let u := unlocked (regs (bflb_wdd s)) in
  let v := peekl u BFLB_REG_WMER in
  let v' := to_u32 (Z.lor v BFLB_VAL_WE) in
  bflb_wdt_start s =
  (0, mk_state (mk_bflb (wdd (bflb_wdd s)) (pokel u BFLB_REG_WMER v'))
               (io s ++ unlock_events ++
                  [IoRead W32 BFLB_REG_WMER v; IoWrite W32 BFLB_REG_WMER (to_u32 v')])
               (klog s ++ [mk_log LInfo "bflb_wdt_start started..." []])).
Proof.
  unfold bflb_wdt_start. unfold bind at 1.
  rewrite unlock_run. run_monad. reflexivity.
Qed.

Lemma stop_run (s : state) :
  let u := unlocked (regs (bflb_wdd s)) in
  let v := peekl u BFLB_REG_WMER in
  let v' := to_u32 (Z.land v (to_u32 (Z.lnot BFLB_VAL_WE))) in
  bflb_wdt_stop s =
  (0, mk_state (mk_bflb (wdd (bflb_wdd s)) (pokel u BFLB_REG_WMER v'))
               (io s ++ unlock_events ++
                  [IoRead W32 BFLB_REG_WMER v; IoWrite W32 BFLB_REG_WMER (to_u32 v')])
               (klog s ++ [mk_log LInfo "bflb_wdt_stopped..." []])).
Proof.
  unfold bflb_wdt_stop. unfold bind at 1.
  rewrite unlock_run. run_monad. reflexivity.
Qed.

Lemma timeleft_run (s : state) :
  let ticks := reg16 s BFLB_REG_WVR in
  let used := to_u32 (ticks / BFLB_TICKS_PER_SEC) in
  let remaining := to_u32 (cur_max_timeout s - used) in
  bflb_wdt_timeleft s =
  (remaining,
   mk_state (bflb_wdd s) (io s ++ [IoRead W16 BFLB_REG_WVR ticks])
            (klog s ++ [mk_log LDbg "bflb_wdt_time left %i (elapsed tick %i, sec %i)"
                               [remaining; ticks; used]])).
Proof. unfold bflb_wdt_timeleft. run_monad. reflexivity. Qed.

Lemma set_timeout_run (s : state) (t : Z) :
  let w := wdd (bflb_wdd s) in
  let clamp := t >=? max_timeout w in
  let t' := if clamp then max_timeout w else t in
  let u := unlocked (regs (bflb_wdd s)) in
  let ticks := to_u32 (t' * BFLB_TICKS_PER_SEC) in
  bflb_wdt_set_timeout t s =
  (0, mk_state (mk_bflb (mk_wdd t' (min_timeout w) (max_timeout w) (status w))
                        (pokew u BFLB_REG_WMR ticks))
               (io s ++ unlock_events ++ [IoWrite W16 BFLB_REG_WMR (to_u16 ticks)])
               (klog s ++
                  (if clamp
                   then [mk_log LWarn "timeout %i > max_timeout %i, using max_timeout..."
                                [t; max_timeout w]]
                   else []) ++
                  [mk_log LDbg "bflb_wdt_set_timeout (s=%i tps=%i)"
                          [t'; BFLB_TICKS_PER_SEC]])).
Proof.
  unfold bflb_wdt_set_timeout, bind, get_wdd, set_wdd, dev_warn, dev_dbg, log, ret.
  destruct (t >=? max_timeout (wdd (bflb_wdd s))); cbv beta iota zeta;
    rewrite update_timeout_reg_run; unfold cur_timeout; simpl;
    repeat rewrite <- app_assoc; reflexivity.
Qed.

(** [bflb_wdt_probe] on its two early exits. *)
Lemma probe_run_nomem (pdev : platform_device) (s : state) :
  kzalloc_ok pdev = false ->
  bflb_wdt_probe pdev s =
  (- ENOMEM,
   mk_state (bflb_wdd s) (io s) (klog s ++ [mk_log LDbg "bflb_wdt_probe started" []])).
Proof.
  intros H. unfold bflb_wdt_probe. rewrite H. run_monad. reflexivity.
Qed.

Lemma probe_run_nomap (pdev : platform_device) (s : state) (e : Z) :
  kzalloc_ok pdev = true -> ioremap_err pdev = Some e ->
  bflb_wdt_probe pdev s =
  (e, mk_state (mk_bflb wdd_zero (regs (bflb_wdd s))) (io s)
               (klog s ++ [mk_log LDbg "bflb_wdt_probe started" []])).
Proof.
  intros H1 H2. unfold bflb_wdt_probe. rewrite H1, H2. run_monad. reflexivity.
Qed.

Lemma probe_run_mapped (pdev : platform_device) (s : state) :
  kzalloc_ok pdev = true -> ioremap_err pdev = None ->
  let r1 := unlocked (regs (bflb_wdd s)) in
  let m := peekl r1 BFLB_REG_WMER in
  let r2 := pokel r1 BFLB_REG_WMER (probe_wmer m) in
  let c := peekl r2 BFLB_REG_TCCR in
  let r3 := pokel r2 BFLB_REG_TCCR (probe_tccr c) in
  let d := peekl r3 BFLB_REG_TCDR in
  let r4 := pokel r3 BFLB_REG_TCDR (probe_tcdr d) in
  let ticks := to_u32 (BFLB_DEFAULT_TIMEOUT * BFLB_TICKS_PER_SEC) in
  let r5 := pokew (unlocked r4) BFLB_REG_WMR ticks in
  bflb_wdt_probe pdev s =
  (register_err pdev,
   mk_state (mk_bflb (mk_wdd BFLB_DEFAULT_TIMEOUT 1 BFLB_MAX_SECS (probe_status pdev)) r5)
            (io s ++ unlock_events ++
               [IoRead W32 BFLB_REG_WMER m; IoWrite W32 BFLB_REG_WMER (to_u32 (probe_wmer m));
                IoRead W32 BFLB_REG_TCCR c; IoWrite W32 BFLB_REG_TCCR (to_u32 (probe_tccr c));
                IoRead W32 BFLB_REG_TCDR d; IoWrite W32 BFLB_REG_TCDR (to_u32 (probe_tcdr d))]
               ++ unlock_events ++ [IoWrite W16 BFLB_REG_WMR (to_u16 ticks)])
            (klog s ++ [mk_log LDbg "bflb_wdt_probe started" []] ++
               (if register_err pdev =? 0
                then [mk_log LInfo "bflb_wdt_probe completed..." []] else []))).
Proof.
  intros H1 H2. unfold bflb_wdt_probe. rewrite H1, H2.
  destruct s as [[w r] t l]. unfold probe_status.
  destruct (Z.eqb_spec (register_err pdev) 0) as [E|E];
    [rewrite E|]; destruct (nowayout pdev);
    cbv - [to_u32 to_u16 peekl peekw pokel pokew Z.lor Z.land Z.lnot Z.mul
           Z.max Z.min Z.div app];
    repeat rewrite <- app_assoc; reflexivity.
Qed.

(** ** Integer conversions and bits *)

Lemma to_u32_range (x : Z) : 0 <= to_u32 x < 2 ^ 32.
Proof. unfold to_u32. apply Z.mod_pos_bound. reflexivity. Qed.

Lemma to_u16_range (x : Z) : 0 <= to_u16 x < 2 ^ 16.
Proof. unfold to_u16. apply Z.mod_pos_bound. reflexivity. Qed.

Lemma to_u32_small (x : Z) : 0 <= x < 2 ^ 32 -> to_u32 x = x.
Proof. intros H. unfold to_u32. apply Z.mod_small. exact H. Qed.

Lemma to_u32_idem (x : Z) : to_u32 (to_u32 x) = to_u32 x.
Proof. apply to_u32_small, to_u32_range. Qed.


Lemma testbit_to_u32 (x i : Z) :
  Z.testbit (to_u32 x) i = (i <? 32) && Z.testbit x i.
Proof. unfold to_u32. apply Z.testbit_mod_pow2. lia. Qed.

Lemma testbit_to_u16 (x i : Z) :
  Z.testbit (to_u16 x) i = (i <? 16) && Z.testbit x i.
Proof. unfold to_u16. apply Z.testbit_mod_pow2. lia. Qed.

Lemma to_u16_to_u32 (x : Z) : to_u16 (to_u32 x) = to_u16 x.
Proof.
  apply Z.bits_inj'. intros i _.
  rewrite !testbit_to_u16, testbit_to_u32.
  destruct (Z.ltb_spec i 16), (Z.ltb_spec i 32); try reflexivity; lia.
Qed.

Lemma to_u16_mask (x : Z) : to_u16 x = Z.land x BFLB_MASK_WMR.
Proof.
  unfold to_u16. change BFLB_MASK_WMR with (Z.ones 16).
  rewrite Z.land_ones by lia. reflexivity.
Qed.

(** Bits of the driver's constants. *)

Lemma testbit_shifted_ones (n k i : Z) :
  0 <= n -> 0 <= k -> 0 <= i ->
  Z.testbit (Z.shiftl (Z.ones n) k) i = (k <=? i) && (i <? k + n).
Proof.
  intros Hn Hk Hi. rewrite Z.shiftl_spec by lia. rewrite Z.testbit_ones by lia.
  destruct (Z.leb_spec 0 (i - k)), (Z.leb_spec k i); try lia;
    destruct (Z.ltb_spec (i - k) n), (Z.ltb_spec i (k + n)); try lia; reflexivity.
Qed.

Lemma testbit_bit0 (i : Z) : 0 <= i -> Z.testbit 1 i = (i =? 0).
Proof.
  intros Hi. change 1 with (2 ^ 0). rewrite Z.pow2_bits_eqb by lia.
  apply Z.eqb_sym.
Qed.

Lemma testbit_bit1 (i : Z) : 0 <= i -> Z.testbit 2 i = (i =? 1).
Proof.
  intros Hi. change 2 with (2 ^ 1). rewrite Z.pow2_bits_eqb by lia.
  apply Z.eqb_sym.
Qed.

Lemma testbit_VAL_WE (i : Z) : 0 <= i -> Z.testbit BFLB_VAL_WE i = (i =? 0).
Proof. exact (testbit_bit0 i). Qed.

Lemma testbit_VAL_WCR (i : Z) : 0 <= i -> Z.testbit BFLB_VAL_WCR i = (i =? 0).
Proof. exact (testbit_bit0 i). Qed.

Lemma testbit_VAL_WRIE (i : Z) : 0 <= i -> Z.testbit BFLB_VAL_WRIE i = (i =? 1).
Proof. exact (testbit_bit1 i). Qed.

Lemma testbit_MASK_CS_WDT (i : Z) :
  0 <= i -> Z.testbit BFLB_MASK_CS_WDT i = (8 <=? i) && (i <? 12).
Proof.
  intros Hi. change BFLB_MASK_CS_WDT with (Z.shiftl (Z.ones 4) 8).
  rewrite testbit_shifted_ones by lia. reflexivity.
Qed.

Lemma testbit_VAL_CS_1K (i : Z) : 0 <= i -> Z.testbit BFLB_VAL_CS_1K i = (i =? 9).
Proof.
  intros Hi. change BFLB_VAL_CS_1K with (2 ^ 9). rewrite Z.pow2_bits_eqb by lia.
  apply Z.eqb_sym.
Qed.

Lemma testbit_MASK_TCDR (i : Z) :
  0 <= i -> Z.testbit BFLB_MASK_TCDR i = (24 <=? i) && (i <? 32).
Proof.
  intros Hi. change BFLB_MASK_TCDR with (Z.shiftl (Z.ones 8) 24).
  rewrite testbit_shifted_ones by lia. reflexivity.
Qed.

Lemma testbit_VAL_TCDR (i : Z) :
  0 <= i -> Z.testbit BFLB_VAL_TCDR i = (24 <=? i) && (i <? 32).
Proof. exact (testbit_MASK_TCDR i). Qed.

Lemma testbit_high_half (i : Z) :
  0 <= i -> Z.testbit 0xFFFF0000 i = (16 <=? i) && (i <? 32).
Proof.
  intros Hi. change 0xFFFF0000 with (Z.shiftl (Z.ones 16) 16).
  rewrite testbit_shifted_ones by lia. reflexivity.
Qed.

(** Rewrites a bit of a driver expression into bits of its inputs, then
    decides the comparisons on the bit index. *)
Ltac bit_rewrite :=
  repeat first
    [ rewrite testbit_to_u32 | rewrite testbit_to_u16
    | rewrite Z.lor_spec | rewrite Z.land_spec
    | rewrite Z.lnot_spec by lia
    | rewrite testbit_VAL_WE by lia | rewrite testbit_VAL_WCR by lia
    | rewrite testbit_VAL_WRIE by lia
    | rewrite testbit_MASK_CS_WDT by lia | rewrite testbit_VAL_CS_1K by lia
    | rewrite testbit_MASK_TCDR by lia | rewrite testbit_VAL_TCDR by lia
    | rewrite testbit_high_half by lia ].

Ltac bit_cases :=
  repeat match goal with
         | |- context [?a <? ?b] => destruct (Z.ltb_spec a b)
         | |- context [?a <=? ?b] => destruct (Z.leb_spec a b)
         | |- context [?a =? ?b] => destruct (Z.eqb_spec a b)
         end;
  try lia; simpl;
  repeat match goal with
         | |- context [Z.testbit ?a ?b] => destruct (Z.testbit a b)
         end;
  try reflexivity; try lia.

Ltac bits := bit_rewrite; bit_cases.

(** Two values are equal when they agree on every bit from 0 up. *)
Ltac by_bits i := apply Z.bits_inj'; intros i ?; bits.

(** ** Reading back the register block *)


Lemma peekw_range (r : regfile) (off : Z) : 0 <= peekw r off < 2 ^ 16.
Proof. apply to_u16_range. Qed.


Lemma peekw_peekl (r : regfile) (off : Z) : peekw r off = to_u16 (peekl r off).
Proof. unfold peekw, peekl. symmetry. apply to_u16_to_u32. Qed.

Lemma upd_same (r : regfile) (off v : Z) : upd r off v off = v.
Proof. unfold upd. rewrite Z.eqb_refl. reflexivity. Qed.

Lemma upd_other (r : regfile) (off off' v : Z) :
  off' <> off -> upd r off v off' = r off'.
Proof.
  intros H. unfold upd. destruct (Z.eqb_spec off' off); [contradiction | reflexivity].
Qed.

Lemma peekl_pokel_same (r : regfile) (off v : Z) :
  peekl (pokel r off v) off = to_u32 v.
Proof. unfold peekl, pokel. rewrite upd_same. apply to_u32_idem. Qed.

Lemma peekl_pokel_other (r : regfile) (off off' v : Z) :
  off' <> off -> peekl (pokel r off v) off' = peekl r off'.
Proof. intros H. unfold peekl, pokel. rewrite upd_other by exact H. reflexivity. Qed.

Lemma peekl_pokew_same (r : regfile) (off v : Z) :
  peekl (pokew r off v) off = Z.lor (Z.land (peekl r off) 0xFFFF0000) (to_u16 v).
Proof.
  unfold pokew. unfold peekl at 1. rewrite upd_same.
  by_bits i.
Qed.

Lemma peekl_pokew_other (r : regfile) (off off' v : Z) :
  off' <> off -> peekl (pokew r off v) off' = peekl r off'.
Proof. intros H. unfold peekl, pokew. rewrite upd_other by exact H. reflexivity. Qed.

Lemma peekw_pokew_same (r : regfile) (off v : Z) :
  peekw (pokew r off v) off = to_u16 v.
Proof.
  rewrite peekw_peekl, peekl_pokew_same. by_bits i.
Qed.

Lemma peekl_unlocked (r : regfile) (off : Z) :
  off <> BFLB_REG_WFAR -> off <> BFLB_REG_WSAR ->
  peekl (unlocked r) off = peekl r off.
Proof.
  intros H1 H2. unfold unlocked.
  rewrite !peekl_pokew_other by assumption. reflexivity.
Qed.

Lemma peekl_unlocked_wfar (r : regfile) :
  peekl (unlocked r) BFLB_REG_WFAR =
  Z.lor (Z.land (peekl r BFLB_REG_WFAR) 0xFFFF0000) (to_u16 BFLB_VAL_WFAR).
Proof.
  unfold unlocked. rewrite peekl_pokew_other by discriminate.
  apply peekl_pokew_same.
Qed.

Lemma peekl_unlocked_wsar (r : regfile) :
  peekl (unlocked r) BFLB_REG_WSAR =
  Z.lor (Z.land (peekl r BFLB_REG_WSAR) 0xFFFF0000) (to_u16 BFLB_VAL_WSAR).
Proof.
  unfold unlocked. rewrite peekl_pokew_same.
  rewrite peekl_pokew_other by discriminate. reflexivity.
Qed.

(** Unlocking a second time leaves every register as the first unlock did,
    whatever was written to other registers in between. *)
Lemma half_write_absorbs (x k : Z) :
  Z.lor (Z.land (Z.lor (Z.land x 0xFFFF0000) (to_u16 k)) 0xFFFF0000) (to_u16 k)
  = Z.lor (Z.land x 0xFFFF0000) (to_u16 k).
Proof. by_bits i. Qed.

(** ** What each operation leaves in the registers *)

Lemma emitted_app {A} (m : M A) (s : state) (evs : list io_event) :
  io (exec m s) = io s ++ evs -> emitted m s = evs.
Proof. intros H. unfold emitted. rewrite H. apply skipn_length_app. Qed.

Lemma logged_app {A} (m : M A) (s : state) (es : list log_entry) :
  klog (exec m s) = klog s ++ es -> logged m s = es.
Proof. intros H. unfold logged. rewrite H. apply skipn_length_app. Qed.

Lemma lor_u32 (v k : Z) :
  0 <= k < 2 ^ 32 -> to_u32 (Z.lor (to_u32 v) k) = Z.lor (to_u32 v) k.
Proof.
  intros Hk. apply to_u32_small. split.
  - apply Z.lor_nonneg. split; [apply to_u32_range | lia].
  - pose proof (to_u32_range v) as Hv.
    destruct (Z.eq_dec (Z.lor (to_u32 v) k) 0) as [E|E]; [rewrite E; reflexivity|].
    apply Z.log2_lt_pow2.
    + assert (0 <= Z.lor (to_u32 v) k) by (apply Z.lor_nonneg; lia). lia.
    + rewrite Z.log2_lor by lia.
      apply Z.max_lub_lt.
      * destruct (Z.eq_dec (to_u32 v) 0) as [E0|E0]; [rewrite E0; reflexivity|].
        apply Z.log2_lt_pow2; lia.
      * destruct (Z.eq_dec k 0) as [E0|E0]; [rewrite E0; reflexivity|].
        apply Z.log2_lt_pow2; lia.
Qed.

Lemma pokel_to_u32 (r : regfile) (off v : Z) :
  pokel r off (to_u32 v) = pokel r off v.
Proof. unfold pokel. rewrite to_u32_idem. reflexivity. Qed.

Lemma start_regs (s : state) :
  regs (bflb_wdd (exec bflb_wdt_start s)) =
  pokel (unlocked (regs (bflb_wdd s))) BFLB_REG_WMER
        (Z.lor (reg32 s BFLB_REG_WMER) BFLB_VAL_WE).
Proof.
  unfold exec. rewrite start_run. unfold reg32. simpl.
  rewrite pokel_to_u32, peekl_unlocked by discriminate. reflexivity.
Qed.

Lemma stop_regs (s : state) :
  regs (bflb_wdd (exec bflb_wdt_stop s)) =
  pokel (unlocked (regs (bflb_wdd s))) BFLB_REG_WMER
        (Z.land (reg32 s BFLB_REG_WMER) (to_u32 (Z.lnot BFLB_VAL_WE))).
Proof.
  unfold exec. rewrite stop_run. unfold reg32. simpl.
  rewrite pokel_to_u32, peekl_unlocked by discriminate. reflexivity.
Qed.

Lemma ping_regs (s : state) :
  regs (bflb_wdd (exec bflb_wdt_ping s)) =
  pokel (unlocked (regs (bflb_wdd s))) BFLB_REG_WCR
        (Z.lor (reg32 s BFLB_REG_WCR) BFLB_VAL_WCR).
Proof.
  unfold exec. rewrite ping_run. unfold reg32. simpl.
  rewrite pokel_to_u32, peekl_unlocked by discriminate. reflexivity.
Qed.

(** A runtime operation that rewrites one 32-bit register [off] leaves every
    register other than [off] and the two key registers as it was. *)
Lemma rmw_frame (r : regfile) (off v off' : Z) :
  off' <> off -> off' <> BFLB_REG_WFAR -> off' <> BFLB_REG_WSAR ->
  peekl (pokel (unlocked r) off v) off' = peekl r off'.
Proof.
  intros H1 H2 H3. rewrite peekl_pokel_other by exact H1.
  apply peekl_unlocked; assumption.
Qed.

Lemma testbit_neg_index (a b i : Z) : i < 0 -> Z.testbit a i = Z.testbit b i.
Proof. intros H. rewrite !Z.testbit_neg_r by exact H. reflexivity. Qed.

Lemma stop_wmer_bit (st : state) (i : Z) :
  Z.testbit (reg32 (exec bflb_wdt_stop st) BFLB_REG_WMER) i =
  negb (i =? 0) && Z.testbit (reg32 st BFLB_REG_WMER) i.
Proof.
  unfold reg32 at 1. rewrite stop_regs, peekl_pokel_same.
  destruct (Z.ltb_spec i 0) as [Hneg|Hpos].
  - rewrite (Z.testbit_neg_r _ i Hneg), (Z.testbit_neg_r _ i Hneg).
    apply eq_sym, andb_false_r.
  - unfold reg32, peekl. bits.
Qed.

Lemma start_wmer (st : state) :
  reg32 (exec bflb_wdt_start st) BFLB_REG_WMER =
  Z.lor (reg32 st BFLB_REG_WMER) BFLB_VAL_WE.
Proof.
  unfold reg32 at 1. rewrite start_regs, peekl_pokel_same.
  apply lor_u32. unfold BFLB_VAL_WE. lia.
Qed.

Lemma start_wmer_bit (st : state) (i : Z) :
  Z.testbit (reg32 (exec bflb_wdt_start st) BFLB_REG_WMER) i =
  (0 <=? i) && ((i =? 0) || Z.testbit (reg32 st BFLB_REG_WMER) i).
Proof.
  rewrite start_wmer.
  destruct (Z.ltb_spec i 0) as [Hneg|Hpos].
  - rewrite (Z.testbit_neg_r _ i Hneg).
    destruct (Z.leb_spec 0 i); [lia | reflexivity].
  - unfold reg32, peekl. bits.
Qed.

Lemma start_wdd (s : state) : wdd (bflb_wdd (exec bflb_wdt_start s)) = wdd (bflb_wdd s).
Proof. unfold exec. rewrite start_run. reflexivity. Qed.

Lemma start_emitted (s : state) :
  emitted bflb_wdt_start s =
  unlock_events ++
    [IoRead W32 BFLB_REG_WMER (reg32 s BFLB_REG_WMER);
     IoWrite W32 BFLB_REG_WMER (Z.lor (reg32 s BFLB_REG_WMER) BFLB_VAL_WE)].
Proof.
  apply emitted_app. unfold exec. rewrite start_run. simpl.
  unfold reg32. rewrite peekl_unlocked by discriminate.
  rewrite to_u32_idem. unfold peekl. rewrite lor_u32 by (unfold BFLB_VAL_WE; lia). reflexivity.
Qed.

(** *** [bflb_wdt_set_timeout] *)

Lemma clamp_is_min (t m : Z) : (if t >=? m then m else t) = Z.min t m.
Proof. destruct (Z.geb_spec t m); lia. Qed.

Lemma pokew_to_u32 (r : regfile) (off v : Z) :
  pokew r off (to_u32 v) = pokew r off v.
Proof. unfold pokew. rewrite to_u16_to_u32. reflexivity. Qed.

Lemma set_timeout_result (s : state) (t : Z) : result (bflb_wdt_set_timeout t) s = 0.
Proof. unfold result. rewrite set_timeout_run. reflexivity. Qed.

Lemma set_timeout_wdd (s : state) (t : Z) :
  wdd (bflb_wdd (exec (bflb_wdt_set_timeout t) s)) =
  mk_wdd (Z.min t (cur_max_timeout s)) (min_timeout (wdd (bflb_wdd s)))
         (max_timeout (wdd (bflb_wdd s))) (status (wdd (bflb_wdd s))).
Proof.
  unfold exec. rewrite set_timeout_run. simpl. rewrite clamp_is_min. reflexivity.
Qed.

Lemma set_timeout_regs (s : state) (t : Z) :
  regs (bflb_wdd (exec (bflb_wdt_set_timeout t) s)) =
  pokew (unlocked (regs (bflb_wdd s))) BFLB_REG_WMR
        (Z.min t (cur_max_timeout s) * BFLB_TICKS_PER_SEC).
Proof.
  unfold exec. rewrite set_timeout_run. simpl.
  rewrite clamp_is_min, pokew_to_u32. reflexivity.
Qed.

Lemma set_timeout_emitted (s : state) (t : Z) :
  emitted (bflb_wdt_set_timeout t) s =
  unlock_events ++
    [IoWrite W16 BFLB_REG_WMR (to_u16 (Z.min t (cur_max_timeout s) * BFLB_TICKS_PER_SEC))].
Proof.
  apply emitted_app. unfold exec. rewrite set_timeout_run. simpl.
  rewrite clamp_is_min, to_u16_to_u32. reflexivity.
Qed.

Lemma set_timeout_logged (s : state) (t : Z) :
  logged (bflb_wdt_set_timeout t) s =
  (if t >=? cur_max_timeout s
   then [mk_log LWarn "timeout %i > max_timeout %i, using max_timeout..."
                [t; cur_max_timeout s]]
   else []) ++
  [mk_log LDbg "bflb_wdt_set_timeout (s=%i tps=%i)"
          [Z.min t (cur_max_timeout s); BFLB_TICKS_PER_SEC]].
Proof.
  apply logged_app. unfold exec. rewrite set_timeout_run. simpl.
  rewrite clamp_is_min. reflexivity.
Qed.

(** *** [bflb_wdt_timeleft] *)

Lemma reg16_range (s : state) (off : Z) : 0 <= reg16 s off <= 65535.
Proof. unfold reg16. pose proof (peekw_range (regs (bflb_wdd s)) off). lia. Qed.

Lemma timeleft_result (s : state) :
  result bflb_wdt_timeleft s =
  to_u32 (cur_max_timeout s - to_u32 (reg16 s BFLB_REG_WVR / BFLB_TICKS_PER_SEC)).
Proof. unfold result. rewrite timeleft_run. reflexivity. Qed.

Lemma used_seconds_bound (e : Z) :
  0 <= e <= 65535 ->
  0 <= e / BFLB_TICKS_PER_SEC <= BFLB_MAX_SECS.
Proof.
  intros He. change BFLB_TICKS_PER_SEC with 4. change BFLB_MAX_SECS with 16383.
  split.
  - apply Z.div_pos; lia.
  - assert (e / 4 < 16384) by (apply Z.div_lt_upper_bound; lia). lia.
Qed.

Lemma timeleft_exact (s : state) :
  cur_max_timeout s = BFLB_MAX_SECS ->
  result bflb_wdt_timeleft s =
  cur_max_timeout s - reg16 s BFLB_REG_WVR / BFLB_TICKS_PER_SEC.
Proof.
  intros Hmax. rewrite timeleft_result.
  pose proof (used_seconds_bound _ (reg16_range s BFLB_REG_WVR)) as Hu.
  rewrite Hmax in *. change BFLB_MAX_SECS with 16383 in *.
  rewrite (to_u32_small (reg16 s BFLB_REG_WVR / BFLB_TICKS_PER_SEC)) by lia.
  apply to_u32_small. lia.
Qed.

(** *** [bflb_wdt_probe] *)


Lemma probe_wdd (pdev : platform_device) (s : state) :
  kzalloc_ok pdev = true -> ioremap_err pdev = None ->
  wdd (bflb_wdd (exec (bflb_wdt_probe pdev) s)) =
  mk_wdd BFLB_DEFAULT_TIMEOUT 1 BFLB_MAX_SECS (probe_status pdev).
Proof.
  intros H1 H2. unfold exec. rewrite probe_run_mapped by assumption. reflexivity.
Qed.

Ltac peek_through :=
  repeat first
    [ rewrite peekl_pokel_same
    | rewrite peekl_pokel_other by discriminate
    | rewrite peekl_pokew_other by discriminate
    | rewrite peekl_unlocked by discriminate ].

Lemma probe_regs (pdev : platform_device) (s : state) :
  kzalloc_ok pdev = true -> ioremap_err pdev = None ->
  let s1 := exec (bflb_wdt_probe pdev) s in
  reg32 s1 BFLB_REG_WMER = probe_wmer (reg32 s BFLB_REG_WMER) /\
  reg32 s1 BFLB_REG_TCCR = probe_tccr (reg32 s BFLB_REG_TCCR) /\
  reg32 s1 BFLB_REG_TCDR = probe_tcdr (reg32 s BFLB_REG_TCDR) /\
  reg16 s1 BFLB_REG_WMR = to_u16 (BFLB_DEFAULT_TIMEOUT * BFLB_TICKS_PER_SEC).
Proof.
  intros H1 H2. cbv zeta. unfold reg32, reg16, exec.
  rewrite probe_run_mapped by assumption. simpl.
  repeat split.
  - peek_through. apply to_u32_idem.
  - peek_through. apply to_u32_idem.
  - peek_through. apply to_u32_idem.
  - rewrite peekw_pokew_same. apply to_u16_to_u32.
Qed.

Lemma probe_emitted (pdev : platform_device) (s : state) :
  kzalloc_ok pdev = true -> ioremap_err pdev = None ->
  emitted (bflb_wdt_probe pdev) s =
  unlock_events ++
    [IoRead W32 BFLB_REG_WMER (reg32 s BFLB_REG_WMER);
     IoWrite W32 BFLB_REG_WMER (probe_wmer (reg32 s BFLB_REG_WMER));
     IoRead W32 BFLB_REG_TCCR (reg32 s BFLB_REG_TCCR);
     IoWrite W32 BFLB_REG_TCCR (probe_tccr (reg32 s BFLB_REG_TCCR));
     IoRead W32 BFLB_REG_TCDR (reg32 s BFLB_REG_TCDR);
     IoWrite W32 BFLB_REG_TCDR (probe_tcdr (reg32 s BFLB_REG_TCDR))]
    ++ unlock_events
    ++ [IoWrite W16 BFLB_REG_WMR (to_u16 (BFLB_DEFAULT_TIMEOUT * BFLB_TICKS_PER_SEC))].
Proof.
  intros H1 H2. apply emitted_app. unfold exec, reg32.
  rewrite probe_run_mapped by assumption. simpl.
  peek_through.
  assert (Hw : forall v, to_u32 (probe_wmer v) = probe_wmer v)
    by (intros; apply to_u32_idem).
  assert (Hc : forall v, to_u32 (probe_tccr v) = probe_tccr v)
    by (intros; apply to_u32_idem).
  assert (Hd : forall v, to_u32 (probe_tcdr v) = probe_tcdr v)
    by (intros; apply to_u32_idem).
  rewrite !Hw, !Hc, !Hd, to_u16_to_u32. reflexivity.
Qed.

Lemma probe_emitted_early (pdev : platform_device) (s : state) :
  kzalloc_ok pdev && match ioremap_err pdev with None => true | Some _ => false end
    = false ->
  emitted (bflb_wdt_probe pdev) s = [].
Proof.
  intros H. apply emitted_app. unfold exec. rewrite app_nil_r.
  destruct (kzalloc_ok pdev) eqn:Hk.
  - destruct (ioremap_err pdev) as [e|] eqn:He; [|discriminate].
    rewrite (probe_run_nomap pdev s e) by assumption. reflexivity.
  - rewrite probe_run_nomem by assumption. reflexivity.
Qed.

(** *** I/O traces of the remaining operations *)

Lemma stop_emitted (s : state) :
  emitted bflb_wdt_stop s =
  unlock_events ++
    [IoRead W32 BFLB_REG_WMER (reg32 s BFLB_REG_WMER);
     IoWrite W32 BFLB_REG_WMER
             (to_u32 (Z.land (reg32 s BFLB_REG_WMER) (to_u32 (Z.lnot BFLB_VAL_WE))))].
Proof.
  apply emitted_app. unfold exec. rewrite stop_run. simpl.
  unfold reg32. rewrite peekl_unlocked by discriminate.
  rewrite to_u32_idem. reflexivity.
Qed.

Lemma ping_emitted (s : state) :
  emitted bflb_wdt_ping s =
  unlock_events ++
    [IoRead W32 BFLB_REG_WCR (reg32 s BFLB_REG_WCR);
     IoWrite W32 BFLB_REG_WCR (Z.lor (reg32 s BFLB_REG_WCR) BFLB_VAL_WCR)].
Proof.
  apply emitted_app. unfold exec. rewrite ping_run. simpl.
  unfold reg32. rewrite peekl_unlocked by discriminate.
  rewrite to_u32_idem. unfold peekl.
  rewrite lor_u32 by (unfold BFLB_VAL_WCR; lia). reflexivity.
Qed.

Lemma timeleft_emitted (s : state) :
  emitted bflb_wdt_timeleft s = [IoRead W16 BFLB_REG_WVR (reg16 s BFLB_REG_WVR)].
Proof. apply emitted_app. unfold exec. rewrite timeleft_run. reflexivity. Qed.

(** What the check means: the writes before a checked write end with the two
    keys, in order. *)
Lemma fresh_unlock_app (prot : Z -> bool) (pre post ws : list io_event) :
  fresh_unlock prot ws (pre ++ post) =
  fresh_unlock prot ws pre && fresh_unlock prot (rev (writes_of pre) ++ ws) post.
Proof.
  revert ws. induction pre as [|e pre IH]; intros ws.
  - reflexivity.
  - destruct e as [w off v|w off v]; simpl.
    + apply IH.
    + rewrite IH, <- app_assoc, andb_assoc. reflexivity.
Qed.

Lemma is_wfar_key_eq (e : io_event) :
  is_wfar_key e = true -> e = IoWrite W16 BFLB_REG_WFAR BFLB_VAL_WFAR.
Proof.
  destruct e as [w off v|[|] off v]; simpl; try discriminate.
  intros H. apply andb_true_iff in H. destruct H as [Ho Hv].
  apply Z.eqb_eq in Ho, Hv. subst. reflexivity.
Qed.

Lemma is_wsar_key_eq (e : io_event) :
  is_wsar_key e = true -> e = IoWrite W16 BFLB_REG_WSAR BFLB_VAL_WSAR.
Proof.
  destruct e as [w off v|[|] off v]; simpl; try discriminate.
  intros H. apply andb_true_iff in H. destruct H as [Ho Hv].
  apply Z.eqb_eq in Ho, Hv. subst. reflexivity.
Qed.

Lemma fresh_unlock_sound (prot : Z -> bool) (pre post : list io_event)
      (w : io_width) (off v : Z) :
  fresh_unlock prot [] (pre ++ IoWrite w off v :: post) = true ->
  prot off = true ->
  exists earlier,
    writes_of pre =
    earlier ++ [IoWrite W16 BFLB_REG_WFAR BFLB_VAL_WFAR;
                IoWrite W16 BFLB_REG_WSAR BFLB_VAL_WSAR].
Proof.
  intros H Hp. rewrite fresh_unlock_app in H.
  apply andb_true_iff in H. destruct H as [_ H].
  simpl in H. rewrite Hp, app_nil_r in H.
  apply andb_true_iff in H. destruct H as [H _].
  destruct (rev (writes_of pre)) as [|b [|a rest]] eqn:Hr; try discriminate.
  simpl in H. apply andb_true_iff in H. destruct H as [Ha Hb].
  apply is_wfar_key_eq in Ha. apply is_wsar_key_eq in Hb. subst a b.
  exists (rev rest).
  rewrite <- (rev_involutive (writes_of pre)), Hr. simpl.
  rewrite <- app_assoc. reflexivity.
Qed.

(** The discipline on the two trace shapes the runtime operations produce. *)
Lemma fresh_unlock_rmw (prot : Z -> bool) (ws : list io_event) (off v v' : Z) :
  prot BFLB_REG_WFAR = false -> prot BFLB_REG_WSAR = false ->
  fresh_unlock prot ws (unlock_events ++ [IoRead W32 off v; IoWrite W32 off v']) = true.
Proof.
  intros Ha Hb. simpl. rewrite Ha, Hb. simpl.
  destruct (prot off); reflexivity.
Qed.

Lemma fresh_unlock_write16 (prot : Z -> bool) (ws : list io_event) (off v : Z) :
  prot BFLB_REG_WFAR = false -> prot BFLB_REG_WSAR = false ->
  fresh_unlock prot ws (unlock_events ++ [IoWrite W16 off v]) = true.
Proof.
  intros Ha Hb. simpl. rewrite Ha, Hb. simpl.
  destruct (prot off); reflexivity.
Qed.

(** *** What [strict_unlock] guarantees *)

Lemma lock_after_app (allow : Z -> bool) (st : lock_state) (pre post : list io_event) :
  lock_after allow st (pre ++ post) =
  match lock_after allow st pre with
  | Some st' => lock_after allow st' post
  | None => None
  end.
Proof.
  revert st. induction pre as [|e pre IH]; intros st; [reflexivity|].
  simpl. destruct (lock_step allow st e); [apply IH | reflexivity].
Qed.

Lemma lock_after_shape (allow : Z -> bool) (pre : list io_event) (st : lock_state) :
  lock_after allow Idle pre = Some st -> lock_shape st pre.
Proof.
  revert st. induction pre as [|e pre IH] using rev_ind; intros st H.
  - simpl in H. injection H as <-. exact I.
  - rewrite lock_after_app in H.
    destruct (lock_after allow Idle pre) as [st0|] eqn:H0; [|discriminate].
    specialize (IH st0 eq_refl). simpl in H.
    destruct (lock_step allow st0 e) as [st1|] eqn:Hs; [|discriminate].
    injection H as <-.
    destruct st0 as [| | |target]; simpl in Hs.
    + destruct e as [w off v|w off v].
      * injection Hs as <-. exact I.
      * destruct (is_wfar_key (IoWrite w off v)) eqn:Hk.
        -- injection Hs as <-. apply is_wfar_key_eq in Hk. rewrite Hk.
           exists pre. reflexivity.
        -- destruct (allow off && negb (wdt_reg off)); [|discriminate].
           injection Hs as <-. exact I.
    + destruct (is_wsar_key e) eqn:Hk; [|discriminate].
      injection Hs as <-. apply is_wsar_key_eq in Hk. rewrite Hk.
      destruct IH as [before ->]. exists before.
      rewrite <- app_assoc. reflexivity.
    + destruct e as [w off v|w off v].
      * destruct (wdt_reg off); [|discriminate]. injection Hs as <-.
        destruct IH as [before ->]. exists before, w, v.
        rewrite <- app_assoc. reflexivity.
      * destruct (wdt_reg off); [|discriminate]. injection Hs as <-. exact I.
    + destruct e as [w off v|w off v]; [discriminate|].
      destruct ((off =? target) && wdt_reg off); [|discriminate].
      injection Hs as <-. exact I.
Qed.

(** In a trace that [strict_unlock] accepts, the accesses directly before a
    write to a watchdog register are the two key writes, in order, and then
    nothing or one read of that same register. *)
Lemma strict_unlock_sound (allow : Z -> bool) (pre post : list io_event)
      (w : io_width) (off v : Z) :
  strict_unlock allow (pre ++ IoWrite w off v :: post) = true ->
  wdt_reg off = true ->
  (exists before, pre = before ++ unlock_events) \/
  (exists before wr vr, pre = before ++ unlock_events ++ [IoRead wr off vr]).
Proof.
  unfold strict_unlock. intros H Hw. rewrite lock_after_app in H.
  destruct (lock_after allow Idle pre) as [st|] eqn:Hpre; [|discriminate].
  apply lock_after_shape in Hpre.
  assert (Hne : BFLB_REG_WFAR <> off)
    by (intros <-; discriminate Hw).
  destruct st as [| | |target]; cbn [lock_after lock_step] in H; simpl in Hpre.
  - assert (Hk : is_wfar_key (IoWrite w off v) = false).
    { destruct w; simpl; [|reflexivity].
      destruct (Z.eqb_spec off BFLB_REG_WFAR); [congruence | reflexivity]. }
    rewrite Hk, Hw, andb_false_r in H. discriminate.
  - assert (Hk : is_wsar_key (IoWrite w off v) = false).
    { destruct w; simpl; [|reflexivity].
      destruct (Z.eqb_spec off BFLB_REG_WSAR) as [->|]; [discriminate Hw | reflexivity]. }
    rewrite Hk in H. discriminate.
  - left. exact Hpre.
  - right. destruct (Z.eqb_spec off target) as [->|]; [exact Hpre|].
    discriminate.
Qed.

(** In a trace that [strict_unlock] accepts, every write goes to a key
    register, to a watchdog register or to a register of [allow]. *)
Lemma strict_unlock_writes (allow : Z -> bool) (pre post : list io_event)
      (w : io_width) (off v : Z) :
  strict_unlock allow (pre ++ IoWrite w off v :: post) = true ->
  off = BFLB_REG_WFAR \/ off = BFLB_REG_WSAR \/ wdt_reg off = true \/ allow off = true.
Proof.
  unfold strict_unlock. intros H. rewrite lock_after_app in H.
  destruct (lock_after allow Idle pre) as [st|]; [|discriminate].
  simpl in H.
  destruct st as [| | |target]; simpl in H.
  - destruct w.
    + simpl in H. destruct (Z.eqb_spec off BFLB_REG_WFAR) as [->|]; [left; reflexivity|].
      simpl in H. destruct (allow off); [right; right; right; reflexivity|].
      simpl in H. discriminate.
    + destruct (allow off); [right; right; right; reflexivity|].
      simpl in H. discriminate.
  - destruct w; [|simpl in H; discriminate].
    simpl in H. destruct (Z.eqb_spec off BFLB_REG_WSAR) as [->|];
      [right; left; reflexivity | simpl in H; discriminate].
  - destruct (wdt_reg off); [right; right; left; reflexivity | discriminate].
  - destruct (wdt_reg off); [right; right; left; reflexivity|].
    rewrite andb_false_r in H. discriminate.
Qed.

(** ** Properties of the specification *)

(** C1 (as the code has it). Every write that any operation, the probe
    included, makes to a watchdog register (mode/enable 0x64, match 0x68,
    ping 0x98) has an unlock sequence of its own directly before it: 0xBABA
    to offset 0x9C, then 0xEB10 to offset 0xA0, and between that sequence and
    the write nothing or one read of the register that is written; no unlock
    serves two writes and none is left unused.  The five runtime operations
    write the two key registers and their one watchdog register and no other
    register.  The probe writes the clock-source (0x00) and pre-divider
    (0xBC) registers directly after its mode/enable write, with no unlock
    sequence of their own: its trace keeps the discipline when those two
    registers are exempt, and with no register exempt only when it exits
    before touching the hardware.  The same holds, for the order of the
    writes alone, whatever was written before the operation. *)
Theorem watchdog_register_writes_freshly_unlocked
        (s : state) (t : Z) (pdev : platform_device) (ws : list io_event) :
  (strict_unlock no_reg (emitted bflb_wdt_ping s) = true /\
   strict_unlock no_reg (emitted (bflb_wdt_set_timeout t) s) = true /\
   strict_unlock no_reg (emitted bflb_wdt_start s) = true /\
   strict_unlock no_reg (emitted bflb_wdt_stop s) = true /\
   strict_unlock no_reg (emitted bflb_wdt_timeleft s) = true) /\
  (map event_offset (writes_of (emitted bflb_wdt_ping s))
     = [BFLB_REG_WFAR; BFLB_REG_WSAR; BFLB_REG_WCR] /\
   map event_offset (writes_of (emitted (bflb_wdt_set_timeout t) s))
     = [BFLB_REG_WFAR; BFLB_REG_WSAR; BFLB_REG_WMR] /\
   map event_offset (writes_of (emitted bflb_wdt_start s))
     = [BFLB_REG_WFAR; BFLB_REG_WSAR; BFLB_REG_WMER] /\
   map event_offset (writes_of (emitted bflb_wdt_stop s))
     = [BFLB_REG_WFAR; BFLB_REG_WSAR; BFLB_REG_WMER] /\
   map event_offset (writes_of (emitted bflb_wdt_timeleft s)) = []) /\
  (strict_unlock timer_reg (emitted (bflb_wdt_probe pdev) s) = true /\
   strict_unlock no_reg (emitted (bflb_wdt_probe pdev) s)
     = negb (probe_reaches_hardware pdev) /\
   map event_offset (emitted (bflb_wdt_probe pdev) s)
     = (if probe_reaches_hardware pdev
        then [BFLB_REG_WFAR; BFLB_REG_WSAR; BFLB_REG_WMER; BFLB_REG_WMER;
              BFLB_REG_TCCR; BFLB_REG_TCCR; BFLB_REG_TCDR; BFLB_REG_TCDR;
              BFLB_REG_WFAR; BFLB_REG_WSAR; BFLB_REG_WMR]
        else []) /\
   map event_offset (writes_of (emitted (bflb_wdt_probe pdev) s))
     = (if probe_reaches_hardware pdev
        then [BFLB_REG_WFAR; BFLB_REG_WSAR; BFLB_REG_WMER;
              BFLB_REG_TCCR; BFLB_REG_TCDR;
              BFLB_REG_WFAR; BFLB_REG_WSAR; BFLB_REG_WMR]
        else [])) /\
  (forall evs,
     In evs [emitted bflb_wdt_ping s; emitted (bflb_wdt_set_timeout t) s;
             emitted bflb_wdt_start s; emitted bflb_wdt_stop s;
             emitted bflb_wdt_timeleft s; emitted (bflb_wdt_probe pdev) s] ->
     forall pre w off v post,
       evs = pre ++ IoWrite w off v :: post -> wdt_reg off = true ->
       (exists before, pre = before ++ unlock_events) \/
       (exists before wr vr, pre = before ++ unlock_events ++ [IoRead wr off vr])) /\
  (fresh_unlock wdt_reg ws (emitted bflb_wdt_ping s) = true /\
   fresh_unlock wdt_reg ws (emitted (bflb_wdt_set_timeout t) s) = true /\
   fresh_unlock wdt_reg ws (emitted bflb_wdt_start s) = true /\
   fresh_unlock wdt_reg ws (emitted bflb_wdt_stop s) = true /\
   fresh_unlock wdt_reg ws (emitted bflb_wdt_timeleft s) = true /\
   fresh_unlock wdt_reg ws (emitted (bflb_wdt_probe pdev) s) = true) /\
  (fresh_unlock wdt_or_timer_reg ws (emitted bflb_wdt_ping s) = true /\
   fresh_unlock wdt_or_timer_reg ws (emitted (bflb_wdt_set_timeout t) s) = true /\
   fresh_unlock wdt_or_timer_reg ws (emitted bflb_wdt_start s) = true /\
   fresh_unlock wdt_or_timer_reg ws (emitted bflb_wdt_stop s) = true /\
   fresh_unlock wdt_or_timer_reg ws (emitted bflb_wdt_timeleft s) = true) /\
  fresh_unlock wdt_or_timer_reg ws (emitted (bflb_wdt_probe pdev) s)
    = negb (kzalloc_ok pdev
            && match ioremap_err pdev with None => true | Some _ => false end).
Proof.
  assert (Hprobe :
            strict_unlock timer_reg (emitted (bflb_wdt_probe pdev) s) = true /\
            strict_unlock no_reg (emitted (bflb_wdt_probe pdev) s)
              = negb (probe_reaches_hardware pdev) /\
            map event_offset (emitted (bflb_wdt_probe pdev) s)
              = (if probe_reaches_hardware pdev
                 then [BFLB_REG_WFAR; BFLB_REG_WSAR; BFLB_REG_WMER; BFLB_REG_WMER;
                       BFLB_REG_TCCR; BFLB_REG_TCCR; BFLB_REG_TCDR; BFLB_REG_TCDR;
                       BFLB_REG_WFAR; BFLB_REG_WSAR; BFLB_REG_WMR]
                 else []) /\
            map event_offset (writes_of (emitted (bflb_wdt_probe pdev) s))
              = (if probe_reaches_hardware pdev
                 then [BFLB_REG_WFAR; BFLB_REG_WSAR; BFLB_REG_WMER;
                       BFLB_REG_TCCR; BFLB_REG_TCDR;
                       BFLB_REG_WFAR; BFLB_REG_WSAR; BFLB_REG_WMR]
                 else []) /\
            fresh_unlock wdt_reg ws (emitted (bflb_wdt_probe pdev) s) = true /\
            fresh_unlock wdt_or_timer_reg ws (emitted (bflb_wdt_probe pdev) s)
              = negb (probe_reaches_hardware pdev)).
  { destruct (probe_reaches_hardware pdev) eqn:Hp; unfold probe_reaches_hardware in Hp.
    - apply andb_true_iff in Hp. destruct Hp as [Hk Hm].
      destruct (ioremap_err pdev) as [e|] eqn:He; [discriminate|].
      rewrite (probe_emitted pdev s Hk He).
      split; [reflexivity|]. split; [reflexivity|]. split; [reflexivity|].
      split; [reflexivity|]. split; reflexivity.
    - rewrite (probe_emitted_early pdev s Hp).
      split; [reflexivity|]. split; [reflexivity|]. split; [reflexivity|].
      split; [reflexivity|]. split; reflexivity. }
  destruct Hprobe as (Hp1 & Hp2 & Hp3 & Hp4 & Hp5 & Hp6).
  assert (Hstrict : forall allow,
            strict_unlock allow (emitted bflb_wdt_ping s) = true /\
            strict_unlock allow (emitted (bflb_wdt_set_timeout t) s) = true /\
            strict_unlock allow (emitted bflb_wdt_start s) = true /\
            strict_unlock allow (emitted bflb_wdt_stop s) = true /\
            strict_unlock allow (emitted bflb_wdt_timeleft s) = true).
  { intros allow.
    rewrite ping_emitted, set_timeout_emitted, start_emitted, stop_emitted,
      timeleft_emitted.
    split; [reflexivity|]. split; [reflexivity|]. split; [reflexivity|].
    split; reflexivity. }
  split; [apply Hstrict|].
  split.
  { rewrite ping_emitted, set_timeout_emitted, start_emitted, stop_emitted,
      timeleft_emitted.
    split; [reflexivity|]. split; [reflexivity|]. split; [reflexivity|].
    split; reflexivity. }
  split; [split; [exact Hp1 | split; [exact Hp2 | split; [exact Hp3 | exact Hp4]]]|].
  split.
  { intros evs Hin pre w off v post Hevs Hw.
    apply (strict_unlock_sound timer_reg pre post w off v); [|exact Hw].
    rewrite <- Hevs.
    destruct (Hstrict timer_reg) as (S1 & S2 & S3 & S4 & S5).
    destruct Hin as [<-|[<-|[<-|[<-|[<-|[<-|[]]]]]]]; assumption. }
  rewrite ping_emitted, set_timeout_emitted, start_emitted, stop_emitted,
    timeleft_emitted.
  split.
  { rewrite !fresh_unlock_rmw, fresh_unlock_write16 by reflexivity.
    split; [reflexivity|]. split; [reflexivity|]. split; [reflexivity|].
    split; [reflexivity|]. split; [reflexivity | exact Hp5]. }
  split; [|exact Hp6].
  rewrite !fresh_unlock_rmw, fresh_unlock_write16 by reflexivity.
  split; [reflexivity|]. split; [reflexivity|]. split; [reflexivity|].
  split; reflexivity.
Qed.

(** The per-access discipline rejects what the code does not do: a read of
    another register, or a second read, between the unlock and the write; a
    write to a register that is neither a key, a watchdog register nor
    exempt; an unlock spent on a register that is not a watchdog register; a
    reversed unlock; an unlock that serves two writes; an unlock that is
    never used. *)
Example strict_unlock_rejects :
  strict_unlock no_reg
    (unlock_events ++ [IoRead W32 BFLB_REG_TCCR 0; IoWrite W32 BFLB_REG_WCR 1]) = false /\
  strict_unlock no_reg
    (unlock_events ++ [IoRead W32 BFLB_REG_WCR 0; IoRead W32 BFLB_REG_WCR 0;
                       IoWrite W32 BFLB_REG_WCR 1]) = false /\
  strict_unlock no_reg
    (unlock_events ++ [IoRead W32 BFLB_REG_WCR 0; IoWrite W32 BFLB_REG_WCR 1;
                       IoWrite W32 0x04 1]) = false /\
  strict_unlock timer_reg
    (unlock_events ++ [IoRead W32 BFLB_REG_WCR 0; IoWrite W32 BFLB_REG_WCR 1]
       ++ unlock_events ++ [IoWrite W32 BFLB_REG_TCCR 1]) = false /\
  strict_unlock no_reg
    [IoWrite W16 BFLB_REG_WSAR BFLB_VAL_WSAR; IoWrite W16 BFLB_REG_WFAR BFLB_VAL_WFAR;
     IoWrite W32 BFLB_REG_WMER 1] = false /\
  strict_unlock no_reg
    (unlock_events ++ [IoWrite W32 BFLB_REG_WMER 1; IoWrite W32 BFLB_REG_WCR 1]) = false /\
  strict_unlock no_reg unlock_events = false.
Proof. repeat split. Qed.

(** C1 as stated fails: on a platform where every step of the probe
    succeeds and the registers read as zero, the probe makes the accesses
    below; its writes to offsets 0x00 and 0xBC follow the write to 0x64
    directly, with no unlock sequence before them. *)
Lemma probe_timer_writes_not_unlocked :
  emitted (bflb_wdt_probe pdev_ok) (boot hw_zero) =
    [IoWrite W16 0x9C 0xBABA; IoWrite W16 0xA0 0xEB10;
     IoRead W32 0x64 0; IoWrite W32 0x64 2;
     IoRead W32 0x00 0; IoWrite W32 0x00 0x200;
     IoRead W32 0xBC 0; IoWrite W32 0xBC 0xFF000000;
     IoWrite W16 0x9C 0xBABA; IoWrite W16 0xA0 0xEB10;
     IoWrite W16 0x68 240] /\
  fresh_unlock wdt_or_timer_reg [] (emitted (bflb_wdt_probe pdev_ok) (boot hw_zero))
    = false /\
  fresh_unlock wdt_or_timer_reg [] (emitted (bflb_wdt_probe pdev_ok) (boot hw_zero))
    <> true.
Proof.
  split; [vm_compute; reflexivity|].
  split; [vm_compute; reflexivity|].
  vm_compute. discriminate.
Qed.

(** C2. For every requested timeout [t], [bflb_wdt_set_timeout t] stores
    [min t max_timeout] as the current timeout: when [t >= max_timeout] it
    stores [max_timeout] and logs one warning, otherwise it stores [t] and
    logs no warning.  It then unlocks and writes the stored timeout times
    [BFLB_TICKS_PER_SEC], masked to 16 bits, to the match register, in the
    same call and without touching the mode/enable register. *)
Theorem set_timeout_clamps_and_writes_match (s : state) (t : Z) :
  let max := cur_max_timeout s in
  let s1 := exec (bflb_wdt_set_timeout t) s in
  let ticks := Z.land (cur_timeout s1 * BFLB_TICKS_PER_SEC) BFLB_MASK_WMR in
  cur_timeout s1 = Z.min t max /\
  (if t >=? max
   then cur_timeout s1 = max /\
        filter is_warn (logged (bflb_wdt_set_timeout t) s) =
          [mk_log LWarn "timeout %i > max_timeout %i, using max_timeout..." [t; max]]
   else cur_timeout s1 = t /\
        filter is_warn (logged (bflb_wdt_set_timeout t) s) = []) /\
  cur_max_timeout s1 = max /\
  emitted (bflb_wdt_set_timeout t) s =
    [IoWrite W16 BFLB_REG_WFAR BFLB_VAL_WFAR; IoWrite W16 BFLB_REG_WSAR BFLB_VAL_WSAR;
     IoWrite W16 BFLB_REG_WMR ticks] /\
  reg16 s1 BFLB_REG_WMR = ticks /\
  reg32 s1 BFLB_REG_WMER = reg32 s BFLB_REG_WMER.
Proof.
  cbv zeta.
  assert (Ht : cur_timeout (exec (bflb_wdt_set_timeout t) s)
               = Z.min t (cur_max_timeout s)).
  { unfold cur_timeout. rewrite set_timeout_wdd. reflexivity. }
  split; [exact Ht|].
  split.
  { rewrite set_timeout_logged, Ht.
    destruct (Z.geb_spec t (cur_max_timeout s)); simpl; split; try reflexivity; lia. }
  split; [unfold cur_max_timeout; rewrite set_timeout_wdd; reflexivity|].
  split; [rewrite set_timeout_emitted, Ht, to_u16_mask; reflexivity|].
  split.
  { unfold reg16. rewrite set_timeout_regs, peekw_pokew_same, Ht.
    apply to_u16_mask. }
  unfold reg32. rewrite set_timeout_regs.
  rewrite peekl_pokew_other by discriminate.
  apply peekl_unlocked; discriminate.
Qed.

(** C3. For every value [e] of the 16-bit elapsed-tick counter, on a probed
    device ([max_timeout = BFLB_MAX_SECS]) [bflb_wdt_timeleft] returns
    [max_timeout - e / BFLB_TICKS_PER_SEC], the division truncating.  The
    configured timeout plays no part: with fewer than one second of ticks
    elapsed the result is [max_timeout], whatever the current timeout is. *)
Theorem timeleft_counts_from_max_timeout (s : state) (e : Z) :
  cur_max_timeout s = BFLB_MAX_SECS ->
  reg16 s BFLB_REG_WVR = e ->
  result bflb_wdt_timeleft s = cur_max_timeout s - e / BFLB_TICKS_PER_SEC /\
  e / BFLB_TICKS_PER_SEC = Z.quot e BFLB_TICKS_PER_SEC /\
  (forall t, result bflb_wdt_timeleft (with_timeout t s) = result bflb_wdt_timeleft s) /\
  (e < BFLB_TICKS_PER_SEC ->
   forall t, result bflb_wdt_timeleft (with_timeout t s) = cur_max_timeout s).
Proof.
  intros Hmax He.
  pose proof (reg16_range s BFLB_REG_WVR) as Hr. rewrite He in Hr.
  assert (Hres : result bflb_wdt_timeleft s = cur_max_timeout s - e / BFLB_TICKS_PER_SEC)
    by (rewrite <- He; apply timeleft_exact; exact Hmax).
  assert (Hany : forall t, result bflb_wdt_timeleft (with_timeout t s)
                           = result bflb_wdt_timeleft s)
    by (intros t; rewrite !timeleft_result; reflexivity).
  split; [exact Hres|].
  split; [symmetry; apply Z.quot_div_nonneg; [lia | reflexivity]|].
  split; [exact Hany|].
  intros Hlt t. rewrite Hany, Hres.
  rewrite Z.div_small by lia. lia.
Qed.

Lemma timeleft_counts_from_max_timeout_witness :
  cur_max_timeout (with_timeout 60 (probed (hw_elapsed 10))) = BFLB_MAX_SECS /\
  reg16 (with_timeout 60 (probed (hw_elapsed 10))) BFLB_REG_WVR = 10 /\
  result bflb_wdt_timeleft (with_timeout 60 (probed (hw_elapsed 10)))
    = cur_max_timeout (with_timeout 60 (probed (hw_elapsed 10)))
      - 10 / BFLB_TICKS_PER_SEC.
Proof.
  split; [reflexivity|]. split; [reflexivity|].
  destruct (timeleft_counts_from_max_timeout
              (with_timeout 60 (probed (hw_elapsed 10))) 10
              eq_refl eq_refl) as [H _].
  exact H.
Defined.

(** C4 (as the code has it). For every requested timeout [t],
    [bflb_wdt_set_timeout t] returns 0, the success code of the watchdog
    operations; the accepted value [min t max_timeout] is not returned but
    stored as the current timeout. *)
Theorem set_timeout_returns_zero (s : state) (t : Z) :
  result (bflb_wdt_set_timeout t) s = 0 /\
  cur_timeout (exec (bflb_wdt_set_timeout t) s) = Z.min t (cur_max_timeout s).
Proof.
  split; [apply set_timeout_result|].
  unfold cur_timeout. rewrite set_timeout_wdd. reflexivity.
Qed.

(** C4 as stated fails: on the probed device, [bflb_wdt_set_timeout 60]
    returns 0, while [min 60 max_timeout] is 60. *)
Lemma set_timeout_60_returns_0_not_60 :
  result (bflb_wdt_set_timeout 60) (probed hw_zero) = 0 /\
  Z.min 60 (cur_max_timeout (probed hw_zero)) = 60 /\
  result (bflb_wdt_set_timeout 60) (probed hw_zero)
    <> Z.min 60 (cur_max_timeout (probed hw_zero)).
Proof.
  split; [vm_compute; reflexivity|].
  split; [vm_compute; reflexivity|].
  vm_compute. discriminate.
Qed.

(** C5. The timing constants are [BFLB_TICKS_PER_SEC = 1024 / 256 = 4] and
    [BFLB_MAX_SECS = 65535 / 4 = 16383]; a successful probe sets the timeout
    to the default 60, the minimum to 1 and the maximum to 16383.  On a
    device with that maximum, [bflb_wdt_set_timeout 60] writes 240 to the
    match register without a warning, and [bflb_wdt_set_timeout 20000] stores
    16383, writes 65532 and logs the clamp as a warning. *)
Theorem timing_constants_and_scenarios
        (pdev : platform_device) (s0 s : state) :
  kzalloc_ok pdev = true -> ioremap_err pdev = None ->
  cur_max_timeout s = BFLB_MAX_SECS ->
  (BFLB_TICKS_PER_SEC = 1024 / 256 /\ BFLB_TICKS_PER_SEC = 4 /\
   BFLB_MAX_SECS = 65535 / 4 /\ BFLB_MAX_SECS = 16383 /\
   BFLB_DEFAULT_TIMEOUT = 60) /\
  (let p := exec (bflb_wdt_probe pdev) s0 in
   cur_timeout p = 60 /\ min_timeout (wdd (bflb_wdd p)) = 1 /\
   cur_max_timeout p = 16383 /\ reg16 p BFLB_REG_WMR = 240) /\
  (let s1 := exec (bflb_wdt_set_timeout 60) s in
   cur_timeout s1 = 60 /\ reg16 s1 BFLB_REG_WMR = 240 /\
   emitted (bflb_wdt_set_timeout 60) s
     = unlock_events ++ [IoWrite W16 BFLB_REG_WMR 0x00F0] /\
   filter is_warn (logged (bflb_wdt_set_timeout 60) s) = []) /\
  (let s2 := exec (bflb_wdt_set_timeout 20000) s in
   cur_timeout s2 = 16383 /\ reg16 s2 BFLB_REG_WMR = 65532 /\
   emitted (bflb_wdt_set_timeout 20000) s
     = unlock_events ++ [IoWrite W16 BFLB_REG_WMR 0xFFFC] /\
   filter is_warn (logged (bflb_wdt_set_timeout 20000) s)
     = [mk_log LWarn "timeout %i > max_timeout %i, using max_timeout..."
               [20000; 16383]]).
Proof.
  intros Hk Hm Hmax. cbv zeta.
  split; [repeat split|].
  split.
  { unfold cur_timeout, cur_max_timeout.
    rewrite (probe_wdd pdev s0 Hk Hm).
    destruct (probe_regs pdev s0 Hk Hm) as (_ & _ & _ & Hwmr).
    rewrite Hwmr. repeat split. }
  split.
  - unfold cur_timeout, reg16.
    rewrite set_timeout_wdd, set_timeout_regs, set_timeout_emitted,
      set_timeout_logged, peekw_pokew_same, Hmax.
    repeat split.
  - unfold cur_timeout, reg16.
    rewrite set_timeout_wdd, set_timeout_regs, set_timeout_emitted,
      set_timeout_logged, peekw_pokew_same, Hmax.
    repeat split.
Qed.

Lemma timing_constants_and_scenarios_witness :
  kzalloc_ok pdev_ok = true /\ ioremap_err pdev_ok = None /\
  cur_max_timeout (probed hw_zero) = BFLB_MAX_SECS /\
  reg16 (exec (bflb_wdt_set_timeout 60) (probed hw_zero)) BFLB_REG_WMR = 240 /\
  reg16 (exec (bflb_wdt_set_timeout 20000) (probed hw_zero)) BFLB_REG_WMR = 65532.
Proof.
  split; [reflexivity|]. split; [reflexivity|]. split; [reflexivity|].
  destruct (timing_constants_and_scenarios pdev_ok (boot hw_zero) (probed hw_zero)
              eq_refl eq_refl eq_refl)
    as (_ & _ & (_ & H60 & _) & (_ & H20000 & _)).
  split; [exact H60 | exact H20000].
Defined.

(** C6. For every prior state of the mode/enable register, [bflb_wdt_stop]
    clears bit 0 (watchdog enable) of that register and leaves each of its
    other bits, every register other than the two key registers, and the
    configuration as they were; [bflb_wdt_start] followed by [bflb_wdt_stop]
    leaves bit 0 clear and every other bit, in particular bit 1
    (reset-interrupt enable), as before: if it was set it is still set. *)
Theorem stop_clears_only_enable_bit (s : state) :
  let mode := fun st => reg32 st BFLB_REG_WMER in
  let s1 := exec bflb_wdt_stop s in
  let s2 := exec bflb_wdt_stop (exec bflb_wdt_start s) in
  (Z.testbit (mode s1) 0 = false /\
   (forall i, i <> 0 -> Z.testbit (mode s1) i = Z.testbit (mode s) i) /\
   (forall off, off <> BFLB_REG_WMER -> off <> BFLB_REG_WFAR ->
                off <> BFLB_REG_WSAR -> reg32 s1 off = reg32 s off) /\
   wdd (bflb_wdd s1) = wdd (bflb_wdd s)) /\
  (Z.testbit (mode s2) 0 = false /\
   (forall i, i <> 0 -> Z.testbit (mode s2) i = Z.testbit (mode s) i) /\
   (Z.testbit (mode s) 1 = true -> Z.testbit (mode s2) 1 = true)).
Proof.
  cbv zeta.
  pose proof stop_wmer_bit as Hstop. pose proof start_wmer_bit as Hstart.
  assert (Hboth : forall i, i <> 0 ->
             Z.testbit (reg32 (exec bflb_wdt_stop (exec bflb_wdt_start s))
                              BFLB_REG_WMER) i =
             Z.testbit (reg32 s BFLB_REG_WMER) i).
  { intros i Hi. rewrite Hstop, Hstart.
    destruct (Z.eqb_spec i 0); [contradiction|].
    destruct (Z.leb_spec 0 i); [reflexivity|].
    simpl. symmetry. apply Z.testbit_neg_r. assumption. }
  split; [split; [|split; [|split]] | split; [|split]].
  - rewrite Hstop. reflexivity.
  - intros i Hi. rewrite Hstop. destruct (Z.eqb_spec i 0); [contradiction | reflexivity].
  - intros off H1 H2 H3. unfold reg32. rewrite stop_regs.
    apply rmw_frame; assumption.
  - unfold exec. rewrite stop_run. reflexivity.
  - rewrite Hstop. reflexivity.
  - exact Hboth.
  - intros H. rewrite Hboth by discriminate. exact H.
Qed.

(** C7. A probe that obtains its memory and its register mapping leaves the
    mode/enable register with bit 0 (enable) clear, bit 1 (reset-interrupt
    enable) set and its other bits as they were; bits 8-11 of the register at
    offset 0x00 equal to [BFLB_VAL_CS_1K] and the top byte of the register at
    offset 0xBC all ones, the other bits of both registers as they were; its
    last register access writes [timeout * BFLB_TICKS_PER_SEC] for the current
    timeout to the match register.  The watchdog is left disabled. *)
Theorem probe_programs_registers (pdev : platform_device) (s : state) :
  kzalloc_ok pdev = true -> ioremap_err pdev = None ->
  let s1 := exec (bflb_wdt_probe pdev) s in
  let mode := reg32 s1 BFLB_REG_WMER in
  let tccr := reg32 s1 BFLB_REG_TCCR in
  let tcdr := reg32 s1 BFLB_REG_TCDR in
  (Z.testbit mode 0 = false /\ Z.testbit mode 1 = true /\
   forall i, i <> 0 -> i <> 1 ->
             Z.testbit mode i = Z.testbit (reg32 s BFLB_REG_WMER) i) /\
  (Z.land tccr BFLB_MASK_CS_WDT = BFLB_VAL_CS_1K /\
   Z.land (Z.shiftr tccr 8) 0xF = 2 /\
   forall i, ~ 8 <= i < 12 ->
             Z.testbit tccr i = Z.testbit (reg32 s BFLB_REG_TCCR) i) /\
  (Z.land tcdr BFLB_MASK_TCDR = BFLB_VAL_TCDR /\
   Z.shiftr tcdr 24 = 0xFF /\
   forall i, ~ 24 <= i < 32 ->
             Z.testbit tcdr i = Z.testbit (reg32 s BFLB_REG_TCDR) i) /\
  emitted (bflb_wdt_probe pdev) s =
    unlock_events ++
      [IoRead W32 BFLB_REG_WMER (reg32 s BFLB_REG_WMER); IoWrite W32 BFLB_REG_WMER mode;
       IoRead W32 BFLB_REG_TCCR (reg32 s BFLB_REG_TCCR); IoWrite W32 BFLB_REG_TCCR tccr;
       IoRead W32 BFLB_REG_TCDR (reg32 s BFLB_REG_TCDR); IoWrite W32 BFLB_REG_TCDR tcdr]
      ++ unlock_events
      ++ [IoWrite W16 BFLB_REG_WMR
                  (Z.land (cur_timeout s1 * BFLB_TICKS_PER_SEC) BFLB_MASK_WMR)] /\
  reg16 s1 BFLB_REG_WMR = Z.land (cur_timeout s1 * BFLB_TICKS_PER_SEC) BFLB_MASK_WMR /\
  cur_timeout s1 = BFLB_DEFAULT_TIMEOUT.
Proof.
  intros Hk Hm. cbv zeta.
  destruct (probe_regs pdev s Hk Hm) as (Hwmer & Htccr & Htcdr & Hwmr).
  rewrite Hwmer, Htccr, Htcdr, Hwmr.
  rewrite (probe_emitted pdev s Hk Hm).
  assert (Hto : cur_timeout (exec (bflb_wdt_probe pdev) s) = BFLB_DEFAULT_TIMEOUT)
    by (unfold cur_timeout; rewrite (probe_wdd pdev s Hk Hm); reflexivity).
  rewrite Hto.
  assert (Hneg : forall a b i, i < 0 -> Z.testbit a i = Z.testbit b i)
    by exact testbit_neg_index.
  split; [|split; [|split; [|split; [|split]]]].
  - unfold probe_wmer, reg32, peekl. split; [|split].
    + bits.
    + bits.
    + intros i H0 H1. destruct (Z.ltb_spec i 0); [apply Hneg; assumption|]. bits.
  - unfold probe_tccr, reg32, peekl. split; [|split].
    + by_bits i.
    + apply Z.bits_inj'. intros i Hi.
      rewrite Z.land_spec, Z.shiftr_spec by lia.
      change 0xF with (Z.ones 4). change 2 with (2 ^ 1).
      rewrite Z.testbit_ones, Z.pow2_bits_eqb by lia. bits.
    + intros i Hi. destruct (Z.ltb_spec i 0); [apply Hneg; assumption|]. bits.
  - unfold probe_tcdr, reg32, peekl. split; [|split].
    + by_bits i.
    + apply Z.bits_inj'. intros i Hi.
      rewrite Z.shiftr_spec by lia.
      change 0xFF with (Z.ones 8).
      rewrite Z.testbit_ones by lia. bits.
    + intros i Hi. destruct (Z.ltb_spec i 0); [apply Hneg; assumption|]. bits.
  - rewrite <- to_u16_mask. reflexivity.
  - apply to_u16_mask.
  - reflexivity.
Qed.

Lemma probe_programs_registers_witness :
  kzalloc_ok pdev_ok = true /\ ioremap_err pdev_ok = None /\
  Z.testbit (reg32 (exec (bflb_wdt_probe pdev_ok) (boot hw_ones)) BFLB_REG_WMER) 0
    = false /\
  Z.testbit (reg32 (exec (bflb_wdt_probe pdev_ok) (boot hw_ones)) BFLB_REG_WMER) 1
    = true.
Proof.
  split; [reflexivity|]. split; [reflexivity|].
  destruct (probe_programs_registers pdev_ok (boot hw_ones) eq_refl eq_refl)
    as ((H0 & H1 & _) & _).
  split; [exact H0 | exact H1].
Defined.

(** C8. [bflb_wdt_start] is idempotent on the hardware: for every state, a
    second call in a row reads the mode/enable register, finds bit 0 set and
    writes back the value it read, so the mode/enable register (and every
    other register, and the configuration) is as the first call left it.
    The first call sets bit 0 and keeps every other bit. *)
Theorem start_twice_same_as_once (s : state) :
  let s1 := exec bflb_wdt_start s in
  let s2 := exec bflb_wdt_start s1 in
  reg32 s2 BFLB_REG_WMER = reg32 s1 BFLB_REG_WMER /\
  reg32 s1 BFLB_REG_WMER = Z.lor (reg32 s BFLB_REG_WMER) BFLB_VAL_WE /\
  Z.testbit (reg32 s1 BFLB_REG_WMER) 0 = true /\
  (forall i, i <> 0 ->
     Z.testbit (reg32 s1 BFLB_REG_WMER) i = Z.testbit (reg32 s BFLB_REG_WMER) i) /\
  emitted bflb_wdt_start s1 =
    unlock_events ++
      [IoRead W32 BFLB_REG_WMER (reg32 s1 BFLB_REG_WMER);
       IoWrite W32 BFLB_REG_WMER (reg32 s1 BFLB_REG_WMER)] /\
  (forall off, reg32 s2 off = reg32 s1 off) /\
  wdd (bflb_wdd s2) = wdd (bflb_wdd s1).
Proof.
  cbv zeta.
  assert (Hsame : reg32 (exec bflb_wdt_start (exec bflb_wdt_start s)) BFLB_REG_WMER
                  = reg32 (exec bflb_wdt_start s) BFLB_REG_WMER).
  { rewrite (start_wmer (exec bflb_wdt_start s)), start_wmer.
    rewrite <- Z.lor_assoc, Z.lor_diag. reflexivity. }
  split; [exact Hsame|].
  split; [apply start_wmer|].
  split; [rewrite start_wmer_bit; reflexivity|].
  split.
  { intros i Hi. rewrite start_wmer_bit.
    destruct (Z.eqb_spec i 0); [contradiction|].
    destruct (Z.leb_spec 0 i); [reflexivity|].
    simpl. symmetry. apply Z.testbit_neg_r. assumption. }
  split.
  { rewrite start_emitted. rewrite <- start_wmer, Hsame. reflexivity. }
  split; [|rewrite !start_wdd; reflexivity].
  intros off.
  destruct (Z.eq_dec off BFLB_REG_WMER) as [->|Hm]; [exact Hsame|].
  unfold reg32. rewrite (start_regs (exec bflb_wdt_start s)).
  rewrite peekl_pokel_other by exact Hm.
  rewrite start_regs.
  destruct (Z.eq_dec off BFLB_REG_WFAR) as [->|Ha].
  { rewrite peekl_unlocked_wfar. rewrite !peekl_pokel_other by discriminate.
    rewrite peekl_unlocked_wfar. apply half_write_absorbs. }
  destruct (Z.eq_dec off BFLB_REG_WSAR) as [->|Hb].
  { rewrite peekl_unlocked_wsar. rewrite !peekl_pokel_other by discriminate.
    rewrite peekl_unlocked_wsar. apply half_write_absorbs. }
  rewrite peekl_unlocked by assumption.
  rewrite peekl_pokel_other by exact Hm. reflexivity.
Qed.

(** C9. In every state, whether the watchdog is enabled or not,
    [bflb_wdt_ping] unlocks and then reads the reset/ping register and writes
    it back with bit 0 set and every other bit as read; it changes neither the
    configuration (timeout included) nor the match register nor the
    mode/enable register, nor any register but the ping register and the two
    key registers. *)
Theorem ping_sets_only_reset_bit (s : state) :
  let s1 := exec bflb_wdt_ping s in
  let v := reg32 s BFLB_REG_WCR in
  result bflb_wdt_ping s = 0 /\
  emitted bflb_wdt_ping s =
    [IoWrite W16 BFLB_REG_WFAR BFLB_VAL_WFAR; IoWrite W16 BFLB_REG_WSAR BFLB_VAL_WSAR;
     IoRead W32 BFLB_REG_WCR v; IoWrite W32 BFLB_REG_WCR (Z.lor v BFLB_VAL_WCR)] /\
  reg32 s1 BFLB_REG_WCR = Z.lor v BFLB_VAL_WCR /\
  Z.testbit (reg32 s1 BFLB_REG_WCR) 0 = true /\
  (forall i, i <> 0 -> Z.testbit (reg32 s1 BFLB_REG_WCR) i = Z.testbit v i) /\
  wdd (bflb_wdd s1) = wdd (bflb_wdd s) /\
  reg32 s1 BFLB_REG_WMR = reg32 s BFLB_REG_WMR /\
  reg32 s1 BFLB_REG_WMER = reg32 s BFLB_REG_WMER /\
  (forall off, off <> BFLB_REG_WCR -> off <> BFLB_REG_WFAR ->
               off <> BFLB_REG_WSAR -> reg32 s1 off = reg32 s off).
Proof.
  cbv zeta.
  assert (Hu32 : forall r, to_u32 (Z.lor (peekl r BFLB_REG_WCR) BFLB_VAL_WCR)
                           = Z.lor (peekl r BFLB_REG_WCR) BFLB_VAL_WCR).
  { intros r. unfold peekl. apply lor_u32. unfold BFLB_VAL_WCR. lia. }
  assert (Hwcr : reg32 (exec bflb_wdt_ping s) BFLB_REG_WCR
                 = Z.lor (reg32 s BFLB_REG_WCR) BFLB_VAL_WCR).
  { unfold reg32 at 1. rewrite ping_regs, peekl_pokel_same. apply Hu32. }
  assert (Hbit : forall i, Z.testbit (Z.lor (reg32 s BFLB_REG_WCR) BFLB_VAL_WCR) i
                           = (0 <=? i) && ((i =? 0) || Z.testbit (reg32 s BFLB_REG_WCR) i)).
  { intros i. destruct (Z.ltb_spec i 0) as [Hneg|Hpos].
    - rewrite (Z.testbit_neg_r _ i Hneg).
      destruct (Z.leb_spec 0 i); [lia | reflexivity].
    - unfold reg32, peekl. bits. }
  assert (Hframe : forall off, off <> BFLB_REG_WCR -> off <> BFLB_REG_WFAR ->
                     off <> BFLB_REG_WSAR ->
                     reg32 (exec bflb_wdt_ping s) off = reg32 s off).
  { intros off H1 H2 H3. unfold reg32. rewrite ping_regs.
    apply rmw_frame; assumption. }
  split; [unfold result; rewrite ping_run; reflexivity|].
  split.
  { apply ping_emitted. }
  split; [exact Hwcr|].
  split; [rewrite Hwcr, Hbit; reflexivity|].
  split.
  { intros i Hi. rewrite Hwcr, Hbit.
    destruct (Z.eqb_spec i 0); [contradiction|].
    destruct (Z.leb_spec 0 i); [reflexivity|].
    simpl. symmetry. apply Z.testbit_neg_r. assumption. }
  split; [unfold exec; rewrite ping_run; reflexivity|].
  split; [apply Hframe; discriminate|].
  split; [apply Hframe; discriminate|].
  exact Hframe.
Qed.

(** C10. [bflb_wdt_timeleft] never underflows on a probed device: the
    counter value [e] read is between 0 and 65535, so [e / 4 <= 16383 =
    max_timeout], the unsigned subtraction does not wrap, and the result lies
    between 0 and [max_timeout]. *)
Theorem timeleft_never_underflows (s : state) :
  cur_max_timeout s = BFLB_MAX_SECS ->
  let e := reg16 s BFLB_REG_WVR in
  let used := e / BFLB_TICKS_PER_SEC in
  BFLB_TICKS_PER_SEC = 4 /\ BFLB_MAX_SECS = 16383 /\
  0 <= e <= 65535 /\
  0 <= used <= cur_max_timeout s /\
  to_u32 (cur_max_timeout s - to_u32 used) = cur_max_timeout s - used /\
  result bflb_wdt_timeleft s = cur_max_timeout s - used /\
  0 <= result bflb_wdt_timeleft s <= cur_max_timeout s.
Proof.
  intros Hmax. cbv zeta.
  pose proof (reg16_range s BFLB_REG_WVR) as Hr.
  pose proof (used_seconds_bound _ Hr) as Hu.
  pose proof (timeleft_exact s Hmax) as Hres.
  split; [reflexivity|]. split; [reflexivity|].
  split; [exact Hr|].
  split; [rewrite Hmax; exact Hu|].
  split; [rewrite <- timeleft_result; exact Hres|].
  split; [exact Hres|].
  rewrite Hres, Hmax. lia.
Qed.

Lemma timeleft_never_underflows_witness :
  cur_max_timeout (probed hw_ones) = BFLB_MAX_SECS /\
  reg16 (probed hw_ones) BFLB_REG_WVR = 65535 /\
  result bflb_wdt_timeleft (probed hw_ones) = 0 /\
  0 <= result bflb_wdt_timeleft (probed hw_ones) <= cur_max_timeout (probed hw_ones).
Proof.
  split; [reflexivity|]. split; [reflexivity|]. split; [reflexivity|].
  destruct (timeleft_never_underflows (probed hw_ones) eq_refl)
    as (_ & _ & _ & _ & _ & _ & H).
  exact H.
Defined.

(** The discipline rejects a reversed unlock sequence, an unlock sequence
    that is made to cover two writes, and a write with no unlock at all. *)
Example fresh_unlock_rejects :
  fresh_unlock wdt_reg []
    [IoWrite W16 BFLB_REG_WSAR BFLB_VAL_WSAR; IoWrite W16 BFLB_REG_WFAR BFLB_VAL_WFAR;
     IoWrite W32 BFLB_REG_WMER 1] = false /\
  fresh_unlock wdt_reg []
    [IoWrite W16 BFLB_REG_WFAR BFLB_VAL_WFAR; IoWrite W16 BFLB_REG_WSAR BFLB_VAL_WSAR;
     IoWrite W32 BFLB_REG_WMER 1; IoWrite W32 BFLB_REG_WCR 1] = false /\
  fresh_unlock wdt_reg [] [IoWrite W16 BFLB_REG_WMR 240] = false.
Proof. repeat split. Qed.

(** ** Further properties of the driver *)

(** *** Helper lemmas *)

Lemma exec_io_emitted_start (s : state) :
  io (exec bflb_wdt_start s) = io s ++ emitted bflb_wdt_start s.
Proof.
  assert (H : exists evs, io (exec bflb_wdt_start s) = io s ++ evs)
    by (unfold exec; rewrite start_run; eexists; reflexivity).
  destruct H as [evs H]. rewrite (emitted_app _ _ _ H). exact H.
Qed.

Lemma exec_io_emitted_stop (s : state) :
  io (exec bflb_wdt_stop s) = io s ++ emitted bflb_wdt_stop s.
Proof.
  assert (H : exists evs, io (exec bflb_wdt_stop s) = io s ++ evs)
    by (unfold exec; rewrite stop_run; eexists; reflexivity).
  destruct H as [evs H]. rewrite (emitted_app _ _ _ H). exact H.
Qed.

Lemma exec_io_emitted_ping (s : state) :
  io (exec bflb_wdt_ping s) = io s ++ emitted bflb_wdt_ping s.
Proof.
  assert (H : exists evs, io (exec bflb_wdt_ping s) = io s ++ evs)
    by (unfold exec; rewrite ping_run; eexists; reflexivity).
  destruct H as [evs H]. rewrite (emitted_app _ _ _ H). exact H.
Qed.

Lemma exec_io_emitted_set_timeout (s : state) (t : Z) :
  io (exec (bflb_wdt_set_timeout t) s) = io s ++ emitted (bflb_wdt_set_timeout t) s.
Proof.
  assert (H : exists evs, io (exec (bflb_wdt_set_timeout t) s) = io s ++ evs)
    by (unfold exec; rewrite set_timeout_run; eexists; reflexivity).
  destruct H as [evs H]. rewrite (emitted_app _ _ _ H). exact H.
Qed.

Lemma exec_io_emitted_timeleft (s : state) :
  io (exec bflb_wdt_timeleft s) = io s ++ emitted bflb_wdt_timeleft s.
Proof.
  assert (H : exists evs, io (exec bflb_wdt_timeleft s) = io s ++ evs)
    by (unfold exec; rewrite timeleft_run; eexists; reflexivity).
  destruct H as [evs H]. rewrite (emitted_app _ _ _ H). exact H.
Qed.

Lemma exec_io_emitted_op (o : watchdog_op) (s : state) :
  io (exec (bflb_wdt_ops o) s) = io s ++ emitted (bflb_wdt_ops o) s.
Proof.
  destruct o; cbn [bflb_wdt_ops].
  - apply exec_io_emitted_start.
  - apply exec_io_emitted_stop.
  - apply exec_io_emitted_ping.
  - apply exec_io_emitted_set_timeout.
  - apply exec_io_emitted_timeleft.
Qed.

Lemma timeleft_bflb_wdd (s : state) :
  bflb_wdd (exec bflb_wdt_timeleft s) = bflb_wdd s.
Proof. unfold exec. rewrite timeleft_run. reflexivity. Qed.

Lemma stop_wdd (s : state) : wdd (bflb_wdd (exec bflb_wdt_stop s)) = wdd (bflb_wdd s).
Proof. unfold exec. rewrite stop_run. reflexivity. Qed.

Lemma ping_wdd (s : state) : wdd (bflb_wdd (exec bflb_wdt_ping s)) = wdd (bflb_wdd s).
Proof. unfold exec. rewrite ping_run. reflexivity. Qed.

Lemma peekw_unchanged (r r' : regfile) (off : Z) :
  peekl r' off = peekl r off -> peekw r' off = peekw r off.
Proof. intros H. rewrite !peekw_peekl, H. reflexivity. Qed.

(** An entry of the table leaves every register but its target and the two
    keys as it was. *)
Lemma op_frame (o : watchdog_op) (s : state) (off : Z) :
  off <> BFLB_REG_WFAR -> off <> BFLB_REG_WSAR -> op_target o <> Some off ->
  reg32 (exec (bflb_wdt_ops o) s) off = reg32 s off.
Proof.
  intros Ha Hb Ht. unfold reg32.
  destruct o; cbn [bflb_wdt_ops op_target] in *.
  - rewrite start_regs. apply rmw_frame; congruence.
  - rewrite stop_regs. apply rmw_frame; congruence.
  - rewrite ping_regs. apply rmw_frame; congruence.
  - rewrite set_timeout_regs.
    rewrite peekl_pokew_other by congruence. apply peekl_unlocked; assumption.
  - rewrite timeleft_bflb_wdd. reflexivity.
Qed.

Lemma op_frame16 (o : watchdog_op) (s : state) (off : Z) :
  off <> BFLB_REG_WFAR -> off <> BFLB_REG_WSAR -> op_target o <> Some off ->
  reg16 (exec (bflb_wdt_ops o) s) off = reg16 s off.
Proof.
  intros Ha Hb Ht. unfold reg16. apply peekw_unchanged.
  apply (op_frame o s off); assumption.
Qed.

Ltac peek_norm :=
  repeat first
    [ rewrite peekl_pokel_same
    | rewrite peekl_pokew_same
    | rewrite peekl_unlocked_wfar
    | rewrite peekl_unlocked_wsar
    | rewrite peekl_pokel_other by (first [assumption | discriminate])
    | rewrite peekl_pokew_other by (first [assumption | discriminate])
    | rewrite peekl_unlocked by (first [assumption | discriminate]) ].

(** Splits on which of the driver's registers [off] is. *)
Ltac reg_cases off :=
  destruct (Z.eq_dec off BFLB_REG_WFAR) as [->|?];
  [|destruct (Z.eq_dec off BFLB_REG_WSAR) as [->|?];
    [|destruct (Z.eq_dec off BFLB_REG_WMER) as [->|?];
      [|destruct (Z.eq_dec off BFLB_REG_WCR) as [->|?];
        [|destruct (Z.eq_dec off BFLB_REG_WMR) as [->|?]]]]].

Lemma probe_logged (pdev : platform_device) (s : state) :
  kzalloc_ok pdev = true -> ioremap_err pdev = None ->
  logged (bflb_wdt_probe pdev) s =
  [mk_log LDbg "bflb_wdt_probe started" []] ++
  (if register_err pdev =? 0
   then [mk_log LInfo "bflb_wdt_probe completed..." []] else []).
Proof.
  intros Hk Hm. apply logged_app. unfold exec.
  rewrite probe_run_mapped by assumption. reflexivity.
Qed.

(** *** Probe: error paths *)

(** X1. A probe that cannot allocate its device structure returns -ENOMEM,
    and one whose register block cannot be mapped returns that mapping's
    error, the allocation failure taking precedence; in both cases it makes
    no register access at all, leaves the register block as it was and does
    not log completion. *)
Theorem probe_early_exit_touches_no_register (pdev : platform_device) (s : state) :
  kzalloc_ok pdev && match ioremap_err pdev with None => true | Some _ => false end
    = false ->
  result (bflb_wdt_probe pdev) s =
    (if kzalloc_ok pdev
     then match ioremap_err pdev with Some e => e | None => 0 end
     else - ENOMEM) /\
  emitted (bflb_wdt_probe pdev) s = [] /\
  regs (bflb_wdd (exec (bflb_wdt_probe pdev) s)) = regs (bflb_wdd s) /\
  filter is_info (logged (bflb_wdt_probe pdev) s) = [].
Proof.
  intros H.
  split; [|split; [apply probe_emitted_early; exact H|]].
  - unfold result. destruct (kzalloc_ok pdev) eqn:Hk.
    + destruct (ioremap_err pdev) as [e|] eqn:He; [|discriminate].
      rewrite (probe_run_nomap pdev s e) by assumption. reflexivity.
    + rewrite probe_run_nomem by assumption. reflexivity.
  - destruct (kzalloc_ok pdev) eqn:Hk.
    + destruct (ioremap_err pdev) as [e|] eqn:He; [|discriminate].
      split.
      * unfold exec. rewrite (probe_run_nomap pdev s e) by assumption. reflexivity.
      * rewrite (logged_app _ _ [mk_log LDbg "bflb_wdt_probe started" []]);
          [reflexivity|].
        unfold exec. rewrite (probe_run_nomap pdev s e) by assumption. reflexivity.
    + split.
      * unfold exec. rewrite probe_run_nomem by assumption. reflexivity.
      * rewrite (logged_app _ _ [mk_log LDbg "bflb_wdt_probe started" []]);
          [reflexivity|].
        unfold exec. rewrite probe_run_nomem by assumption. reflexivity.
Qed.

Lemma probe_early_exit_touches_no_register_witness :
  kzalloc_ok (mk_pdev false (Some (-16)) true 0)
    && match ioremap_err (mk_pdev false (Some (-16)) true 0) with
       | None => true | Some _ => false end = false /\
  result (bflb_wdt_probe (mk_pdev false (Some (-16)) true 0)) (boot hw_ones) = -12 /\
  emitted (bflb_wdt_probe (mk_pdev false (Some (-16)) true 0)) (boot hw_ones) = [].
Proof.
  split; [reflexivity|].
  destruct (probe_early_exit_touches_no_register
              (mk_pdev false (Some (-16)) true 0) (boot hw_ones) eq_refl)
    as (Hr & He & _).
  split; [exact Hr | exact He].
Defined.

(** X2. When the probe has programmed the hardware and the registration of
    the watchdog device then fails, it returns the registration error without
    logging completion and undoes nothing: the device structure, the register
    block and the accesses made are those of a probe whose registration
    succeeds, so the watchdog is left disabled. *)
Theorem probe_registration_failure_keeps_hardware_setup
        (pdev : platform_device) (s : state) :
  kzalloc_ok pdev = true -> ioremap_err pdev = None -> register_err pdev <> 0 ->
  let good := mk_pdev true None (nowayout pdev) 0 in
  let s1 := exec (bflb_wdt_probe pdev) s in
  result (bflb_wdt_probe pdev) s = register_err pdev /\
  bflb_wdd s1 = bflb_wdd (exec (bflb_wdt_probe good) s) /\
  emitted (bflb_wdt_probe pdev) s = emitted (bflb_wdt_probe good) s /\
  Z.testbit (reg32 s1 BFLB_REG_WMER) 0 = false /\
  filter is_info (logged (bflb_wdt_probe pdev) s) = [] /\
  filter is_info (logged (bflb_wdt_probe good) s)
    = [mk_log LInfo "bflb_wdt_probe completed..." []].
Proof.
  intros Hk Hm He. cbv zeta.
  split; [unfold result; rewrite probe_run_mapped by assumption; reflexivity|].
  split.
  { unfold exec. rewrite !probe_run_mapped by (first [assumption | reflexivity]).
    unfold probe_status. reflexivity. }
  split.
  { rewrite !probe_emitted by (first [assumption | reflexivity]). reflexivity. }
  split.
  { destruct (probe_regs pdev s Hk Hm) as (Hw & _). rewrite Hw.
    unfold probe_wmer, reg32, peekl. bits. }
  split.
  - rewrite probe_logged by assumption.
    destruct (Z.eqb_spec (register_err pdev) 0); [contradiction | reflexivity].
  - rewrite probe_logged by reflexivity. reflexivity.
Qed.

Lemma probe_registration_failure_keeps_hardware_setup_witness :
  kzalloc_ok (mk_pdev true None false (-22)) = true /\
  ioremap_err (mk_pdev true None false (-22)) = None /\
  register_err (mk_pdev true None false (-22)) <> 0 /\
  result (bflb_wdt_probe (mk_pdev true None false (-22))) (boot hw_ones) = -22.
Proof.
  split; [reflexivity|]. split; [reflexivity|]. split; [discriminate|].
  destruct (probe_registration_failure_keeps_hardware_setup
              (mk_pdev true None false (-22)) (boot hw_ones) eq_refl eq_refl
              ltac:(discriminate))
    as (Hr & _).
  exact Hr.
Defined.

(** *** Timeout arithmetic *)

Lemma update_timeout_reg_regs (s : state) :
  regs (bflb_wdd (exec bflb_wdt_update_timeout_reg s)) =
  pokew (unlocked (regs (bflb_wdd s))) BFLB_REG_WMR
        (cur_timeout s * BFLB_TICKS_PER_SEC).
Proof.
  unfold exec. rewrite update_timeout_reg_run. simpl.
  apply pokew_to_u32.
Qed.

(** X3. [bflb_wdt_update_timeout_reg] itself does not check the timeout: it
    writes four times the timeout taken modulo 16384 seconds, so a timeout of
    16384 would program 0 ticks.  It is exact for timeouts from 0 to
    [BFLB_MAX_SECS], and it leaves the configuration as it is. *)
Theorem update_timeout_reg_wraps_beyond_max (s : state) :
  let s1 := exec bflb_wdt_update_timeout_reg s in
  reg16 s1 BFLB_REG_WMR
    = BFLB_TICKS_PER_SEC * (cur_timeout s mod (BFLB_MAX_SECS + 1)) /\
  (0 <= cur_timeout s <= BFLB_MAX_SECS ->
   reg16 s1 BFLB_REG_WMR = cur_timeout s * BFLB_TICKS_PER_SEC) /\
  (cur_timeout s = BFLB_MAX_SECS + 1 -> reg16 s1 BFLB_REG_WMR = 0) /\
  wdd (bflb_wdd s1) = wdd (bflb_wdd s).
Proof.
  cbv zeta.
  assert (H : reg16 (exec bflb_wdt_update_timeout_reg s) BFLB_REG_WMR
              = BFLB_TICKS_PER_SEC * (cur_timeout s mod (BFLB_MAX_SECS + 1))).
  { unfold reg16. rewrite update_timeout_reg_regs, peekw_pokew_same.
    unfold to_u16. change (2 ^ 16) with (4 * 16384).
    change BFLB_TICKS_PER_SEC with 4. change (BFLB_MAX_SECS + 1) with 16384.
    rewrite (Z.mul_comm (cur_timeout s) 4).
    apply Z.mul_mod_distr_l; lia. }
  split; [exact H|]. split; [|split].
  - intros Hr. rewrite H. change (BFLB_MAX_SECS + 1) with 16384.
    change BFLB_MAX_SECS with 16383 in Hr.
    rewrite Z.mod_small by lia. apply Z.mul_comm.
  - intros He. rewrite H, He. reflexivity.
  - unfold exec. rewrite update_timeout_reg_run. reflexivity.
Qed.

(** X4. On a probed device ([max_timeout = BFLB_MAX_SECS]) the clamp of
    [bflb_wdt_set_timeout] keeps the 16-bit write exact: for every requested
    [t >= 0] the match register holds exactly four times the accepted
    timeout, no bit is lost, and the accepted timeout can be read back from
    it by dividing by four. *)
Theorem set_timeout_match_exact (s : state) (t : Z) :
  cur_max_timeout s = BFLB_MAX_SECS -> 0 <= t ->
  let s1 := exec (bflb_wdt_set_timeout t) s in
  0 <= cur_timeout s1 <= BFLB_MAX_SECS /\
  reg16 s1 BFLB_REG_WMR = cur_timeout s1 * BFLB_TICKS_PER_SEC /\
  reg16 s1 BFLB_REG_WMR / BFLB_TICKS_PER_SEC = Z.min t BFLB_MAX_SECS /\
  reg16 s1 BFLB_REG_WMR <= 65532.
Proof.
  intros Hmax Ht. cbv zeta.
  assert (Hc : cur_timeout (exec (bflb_wdt_set_timeout t) s) = Z.min t BFLB_MAX_SECS).
  { unfold cur_timeout. rewrite set_timeout_wdd, Hmax. reflexivity. }
  assert (Hr : reg16 (exec (bflb_wdt_set_timeout t) s) BFLB_REG_WMR
               = Z.min t BFLB_MAX_SECS * BFLB_TICKS_PER_SEC).
  { unfold reg16. rewrite set_timeout_regs, peekw_pokew_same, Hmax.
    unfold to_u16. apply Z.mod_small.
    change BFLB_MAX_SECS with 16383. change BFLB_TICKS_PER_SEC with 4. lia. }
  rewrite Hc, Hr.
  change BFLB_MAX_SECS with 16383. change BFLB_TICKS_PER_SEC with 4.
  split; [lia|]. split; [reflexivity|]. split; [|lia].
  apply Z.div_mul. discriminate.
Qed.

Lemma set_timeout_match_exact_witness :
  cur_max_timeout (probed hw_ones) = BFLB_MAX_SECS /\ 0 <= 4000000000 /\
  reg16 (exec (bflb_wdt_set_timeout 4000000000) (probed hw_ones)) BFLB_REG_WMR
    / BFLB_TICKS_PER_SEC = Z.min 4000000000 BFLB_MAX_SECS.
Proof.
  split; [reflexivity|]. split; [discriminate|].
  destruct (set_timeout_match_exact (probed hw_ones) 4000000000 eq_refl
              ltac:(discriminate))
    as (_ & _ & H & _).
  exact H.
Defined.

(** X5. Of two [bflb_wdt_set_timeout] calls in a row the last one wins: the
    configuration and every register are as if only the second call had been
    made. *)
Theorem set_timeout_last_call_wins (s : state) (t1 t2 : Z) :
  let both := exec (bflb_wdt_set_timeout t2) (exec (bflb_wdt_set_timeout t1) s) in
  let last := exec (bflb_wdt_set_timeout t2) s in
  wdd (bflb_wdd both) = wdd (bflb_wdd last) /\
  (forall off, reg32 both off = reg32 last off) /\
  reg16 both BFLB_REG_WMR = reg16 last BFLB_REG_WMR.
Proof.
  cbv zeta.
  assert (Hmax : cur_max_timeout (exec (bflb_wdt_set_timeout t1) s) = cur_max_timeout s)
    by (unfold cur_max_timeout; rewrite set_timeout_wdd; reflexivity).
  assert (Hregs : forall off,
             reg32 (exec (bflb_wdt_set_timeout t2) (exec (bflb_wdt_set_timeout t1) s)) off
             = reg32 (exec (bflb_wdt_set_timeout t2) s) off).
  { intros off. unfold reg32.
    rewrite (set_timeout_regs (exec (bflb_wdt_set_timeout t1) s)), Hmax.
    rewrite !set_timeout_regs.
    reg_cases off; peek_norm; try reflexivity; unfold peekl; by_bits i. }
  split; [|split; [exact Hregs|]].
  - rewrite (set_timeout_wdd (exec (bflb_wdt_set_timeout t1) s)), Hmax.
    rewrite !set_timeout_wdd. reflexivity.
  - unfold reg16. apply peekw_unchanged. apply Hregs.
Qed.

(** *** The operation table *)

Lemma op_wdd (o : watchdog_op) (s : state) :
  wdd (bflb_wdd (exec (bflb_wdt_ops o) s)) =
  match o with
  | op_set_timeout t =>
      mk_wdd (Z.min t (cur_max_timeout s)) (min_timeout (wdd (bflb_wdd s)))
             (max_timeout (wdd (bflb_wdd s))) (status (wdd (bflb_wdd s)))
  | _ => wdd (bflb_wdd s)
  end.
Proof.
  destruct o; cbn [bflb_wdt_ops].
  - apply start_wdd.
  - apply stop_wdd.
  - apply ping_wdd.
  - apply set_timeout_wdd.
  - rewrite timeleft_bflb_wdd. reflexivity.
Qed.

Lemma op_emitted (o : watchdog_op) (s : state) :
  exists vs,
    emitted (bflb_wdt_ops o) s =
    match op_target o with
    | Some off =>
        unlock_events ++
          match o with
          | op_set_timeout _ => [IoWrite W16 off (nth 0 vs 0)]
          | _ => [IoRead W32 off (nth 0 vs 0); IoWrite W32 off (nth 1 vs 0)]
          end
    | None => [IoRead W16 BFLB_REG_WVR (nth 0 vs 0)]
    end.
Proof.
  destruct o; cbn [bflb_wdt_ops op_target].
  - rewrite start_emitted. eexists [_; _]. reflexivity.
  - rewrite stop_emitted. eexists [_; _]. reflexivity.
  - rewrite ping_emitted. eexists [_; _]. reflexivity.
  - rewrite set_timeout_emitted. eexists [_]. reflexivity.
  - rewrite timeleft_emitted. eexists [_]. reflexivity.
Qed.

(** X6. Each entry of the operation table writes the two key registers and
    one register of its own, in that order ([get_timeleft] writes nothing):
    the mode/enable register for start and stop, the ping register for ping,
    the match register for set_timeout.  Every other register keeps its
    value, the minimum, maximum and status of the device are never changed,
    and only set_timeout changes the timeout. *)
Theorem op_writes_only_its_register (o : watchdog_op) (s : state) :
  let s1 := exec (bflb_wdt_ops o) s in
  map event_offset (writes_of (emitted (bflb_wdt_ops o) s)) =
    match op_target o with
    | Some off => [BFLB_REG_WFAR; BFLB_REG_WSAR; off]
    | None => []
    end /\
  (forall off, off <> BFLB_REG_WFAR -> off <> BFLB_REG_WSAR ->
               op_target o <> Some off -> reg32 s1 off = reg32 s off) /\
  cur_max_timeout s1 = cur_max_timeout s /\
  min_timeout (wdd (bflb_wdd s1)) = min_timeout (wdd (bflb_wdd s)) /\
  status (wdd (bflb_wdd s1)) = status (wdd (bflb_wdd s)) /\
  ((forall t, o <> op_set_timeout t) -> cur_timeout s1 = cur_timeout s).
Proof.
  cbv zeta.
  split.
  { destruct (op_emitted o s) as [vs Hv]. rewrite Hv.
    destruct o; reflexivity. }
  split; [intros off; apply op_frame|].
  unfold cur_max_timeout, cur_timeout. rewrite op_wdd.
  destruct o; repeat (split; [reflexivity|]); try (intros _; reflexivity).
  intros H. exfalso. apply (H t). reflexivity.
Qed.

(** *** Time left *)

(** X7. On a probed device the time left never grows with the counter: a
    state with more elapsed ticks reports no more time left, four more ticks
    report exactly one second less, and fewer than four more ticks report
    at most one second less. *)
Theorem timeleft_decreases_with_ticks (s1 s2 : state) :
  cur_max_timeout s1 = BFLB_MAX_SECS -> cur_max_timeout s2 = BFLB_MAX_SECS ->
  reg16 s1 BFLB_REG_WVR <= reg16 s2 BFLB_REG_WVR ->
  result bflb_wdt_timeleft s2 <= result bflb_wdt_timeleft s1 /\
  (reg16 s2 BFLB_REG_WVR = reg16 s1 BFLB_REG_WVR + BFLB_TICKS_PER_SEC ->
   result bflb_wdt_timeleft s2 = result bflb_wdt_timeleft s1 - 1) /\
  (reg16 s2 BFLB_REG_WVR < reg16 s1 BFLB_REG_WVR + BFLB_TICKS_PER_SEC ->
   result bflb_wdt_timeleft s1 - 1 <= result bflb_wdt_timeleft s2).
Proof.
  intros H1 H2 Hle.
  rewrite (timeleft_exact s1 H1), (timeleft_exact s2 H2), H1, H2.
  pose proof (reg16_range s1 BFLB_REG_WVR) as R1.
  change BFLB_TICKS_PER_SEC with 4.
  split; [|split].
  - assert (reg16 s1 BFLB_REG_WVR / 4 <= reg16 s2 BFLB_REG_WVR / 4)
      by (apply Z.div_le_mono; lia).
    lia.
  - intros He. rewrite He.
    replace (reg16 s1 BFLB_REG_WVR + 4) with (reg16 s1 BFLB_REG_WVR + 1 * 4) by lia.
    rewrite Z.div_add by lia. lia.
  - intros Hlt.
    assert (reg16 s2 BFLB_REG_WVR / 4 <= (reg16 s1 BFLB_REG_WVR + 1 * 4) / 4)
      by (apply Z.div_le_mono; lia).
    rewrite Z.div_add in H by lia. lia.
Qed.

Lemma timeleft_decreases_with_ticks_witness :
  cur_max_timeout (probed (hw_elapsed 10)) = BFLB_MAX_SECS /\
  cur_max_timeout (probed (hw_elapsed 14)) = BFLB_MAX_SECS /\
  reg16 (probed (hw_elapsed 10)) BFLB_REG_WVR
    <= reg16 (probed (hw_elapsed 14)) BFLB_REG_WVR /\
  result bflb_wdt_timeleft (probed (hw_elapsed 14))
    <= result bflb_wdt_timeleft (probed (hw_elapsed 10)).
Proof.
  split; [reflexivity|]. split; [reflexivity|].
  split; [vm_compute; discriminate|].
  destruct (timeleft_decreases_with_ticks
              (probed (hw_elapsed 10)) (probed (hw_elapsed 14)) eq_refl eq_refl
              ltac:(vm_compute; discriminate))
    as (H & _).
  exact H.
Defined.

(** *** Sequences of calls *)


Lemma op_mode_bit (o : watchdog_op) (s : state) (i : Z) :
  i <> 0 ->
  Z.testbit (reg32 (exec (bflb_wdt_ops o) s) BFLB_REG_WMER) i
  = Z.testbit (reg32 s BFLB_REG_WMER) i.
Proof.
  intros Hi.
  assert (Hkeep : op_target o <> Some BFLB_REG_WMER ->
                  reg32 (exec (bflb_wdt_ops o) s) BFLB_REG_WMER
                  = reg32 s BFLB_REG_WMER)
    by (intros H; apply op_frame; [discriminate | discriminate | exact H]).
  destruct o; cbn [bflb_wdt_ops op_target] in *;
    try (rewrite Hkeep by discriminate; reflexivity).
  - rewrite start_wmer_bit.
    destruct (Z.eqb_spec i 0); [contradiction|].
    destruct (Z.leb_spec 0 i); [reflexivity|].
    simpl. symmetry. apply Z.testbit_neg_r. assumption.
  - rewrite stop_wmer_bit.
    destruct (Z.eqb_spec i 0); [contradiction | reflexivity].
Qed.

Lemma op_enable_bit (o : watchdog_op) (s : state) :
  Z.testbit (reg32 (exec (bflb_wdt_ops o) s) BFLB_REG_WMER) 0
  = enabled_after [o] (Z.testbit (reg32 s BFLB_REG_WMER) 0).
Proof.
  assert (Hkeep : op_target o <> Some BFLB_REG_WMER ->
                  reg32 (exec (bflb_wdt_ops o) s) BFLB_REG_WMER
                  = reg32 s BFLB_REG_WMER)
    by (intros H; apply op_frame; [discriminate | discriminate | exact H]).
  destruct o; cbn [bflb_wdt_ops op_target enabled_after] in *;
    try (rewrite Hkeep by discriminate; reflexivity).
  - rewrite start_wmer_bit. reflexivity.
  - rewrite stop_wmer_bit. reflexivity.
Qed.

Lemma op_keeps_configured (o : watchdog_op) (s : state) :
  op_valid o -> wdt_configured s -> wdt_configured (exec (bflb_wdt_ops o) s).
Proof.
  intros Hv (Hmax & Hmin & Hto & Hwmr & Hwrie & Hcs & Hdiv).
  unfold wdt_configured, cur_max_timeout, cur_timeout.
  rewrite op_mode_bit by discriminate.
  rewrite (op_frame o s BFLB_REG_TCCR), (op_frame o s BFLB_REG_TCDR)
    by (try discriminate; destruct o; discriminate).
  assert (Hother : op_target o <> Some BFLB_REG_WMR ->
                   reg16 (exec (bflb_wdt_ops o) s) BFLB_REG_WMR
                   = reg16 s BFLB_REG_WMR)
    by (intros H; apply op_frame16; [discriminate | discriminate | exact H]).
  rewrite op_wdd.
  destruct o; cbn [bflb_wdt_ops op_target op_valid] in *;
    try (rewrite Hother by discriminate; repeat (split; [assumption|]); assumption).
  cbn [timeout min_timeout max_timeout].
  unfold cur_max_timeout in *. rewrite Hmax.
  unfold reg16. rewrite set_timeout_regs, peekw_pokew_same.
  unfold cur_max_timeout. rewrite Hmax.
  change BFLB_MAX_SECS with 16383 in *. change BFLB_TICKS_PER_SEC with 4 in *.
  repeat (split; [first [assumption | reflexivity | lia]|]).
  split; [|repeat (split; [assumption|]); assumption].
  unfold to_u16. apply Z.mod_small. lia.
Qed.

Lemma probe_configures (pdev : platform_device) (s : state) :
  kzalloc_ok pdev = true -> ioremap_err pdev = None ->
  wdt_configured (exec (bflb_wdt_probe pdev) s).
Proof.
  intros Hk Hm.
  destruct (probe_regs pdev s Hk Hm) as (Hwmer & Htccr & Htcdr & Hwmr).
  unfold wdt_configured, cur_max_timeout, cur_timeout.
  rewrite (probe_wdd pdev s Hk Hm), Hwmer, Htccr, Htcdr, Hwmr.
  cbn [timeout min_timeout max_timeout].
  split; [reflexivity|]. split; [reflexivity|].
  split; [split; discriminate|]. split; [reflexivity|].
  split; [|split].
  - unfold probe_wmer, reg32, peekl. bits.
  - unfold probe_tccr, reg32, peekl. by_bits i.
  - unfold probe_tcdr, reg32, peekl. by_bits i.
Qed.


(** X8. After a probe that obtains its memory and its register mapping, any
    sequence of calls through the operation table (set_timeout with any
    [unsigned int] argument) keeps the device configured: the maximum stays
    [BFLB_MAX_SECS] and the minimum 1, the timeout stays between 0 and the
    maximum, the match register holds exactly four times the timeout, the
    reset-interrupt-enable bit stays set and the clock-select and pre-divider
    fields keep the values the probe gave them. *)
Theorem calls_keep_device_configured
        (pdev : platform_device) (s0 : state) (ops : list watchdog_op) :
  kzalloc_ok pdev = true -> ioremap_err pdev = None -> Forall op_valid ops ->
  let s := run_ops ops (exec (bflb_wdt_probe pdev) s0) in
  cur_max_timeout s = BFLB_MAX_SECS /\
  min_timeout (wdd (bflb_wdd s)) = 1 /\
  0 <= cur_timeout s <= BFLB_MAX_SECS /\
  reg16 s BFLB_REG_WMR = cur_timeout s * BFLB_TICKS_PER_SEC /\
  Z.testbit (reg32 s BFLB_REG_WMER) 1 = true /\
  Z.land (reg32 s BFLB_REG_TCCR) BFLB_MASK_CS_WDT = BFLB_VAL_CS_1K /\
  Z.land (reg32 s BFLB_REG_TCDR) BFLB_MASK_TCDR = BFLB_VAL_TCDR.
Proof.
  intros Hk Hm Hv. cbv zeta.
  pose proof (probe_configures pdev s0 Hk Hm) as Hc.
  revert Hc. generalize (exec (bflb_wdt_probe pdev) s0) as s.
  induction Hv as [|o tl Ho Htl IH]; intros s Hc.
  - exact Hc.
  - simpl. apply IH. apply op_keeps_configured; assumption.
Qed.

Lemma calls_keep_device_configured_witness :
  kzalloc_ok pdev_ok = true /\ ioremap_err pdev_ok = None /\
  Forall op_valid [op_start; op_set_timeout 4000000000; op_ping;
                   op_set_timeout 0; op_get_timeleft; op_stop] /\
  reg16 (run_ops [op_start; op_set_timeout 4000000000; op_ping;
                  op_set_timeout 0; op_get_timeleft; op_stop]
                 (exec (bflb_wdt_probe pdev_ok) (boot hw_ones))) BFLB_REG_WMR
  = cur_timeout (run_ops [op_start; op_set_timeout 4000000000; op_ping;
                          op_set_timeout 0; op_get_timeleft; op_stop]
                         (exec (bflb_wdt_probe pdev_ok) (boot hw_ones)))
    * BFLB_TICKS_PER_SEC.
Proof.
  assert (Hv : Forall op_valid [op_start; op_set_timeout 4000000000; op_ping;
                                op_set_timeout 0; op_get_timeleft; op_stop]).
  { repeat constructor; simpl; lia. }
  split; [reflexivity|]. split; [reflexivity|]. split; [exact Hv|].
  destruct (calls_keep_device_configured pdev_ok (boot hw_ones) _ eq_refl eq_refl Hv)
    as (_ & _ & _ & H & _).
  exact H.
Defined.

(** X9. The enable bit follows the calls: after any sequence of calls through
    the operation table, bit 0 of the mode/enable register is set exactly
    when the last start or stop in the sequence was a start (or, with neither
    in the sequence, when it was set before); ping, set_timeout and
    get_timeleft never start or stop the watchdog.  Every other bit of the
    register is as it was before the sequence. *)
Theorem enable_bit_follows_last_start_or_stop (ops : list watchdog_op) (s : state) :
  Z.testbit (reg32 (run_ops ops s) BFLB_REG_WMER) 0
    = enabled_after ops (Z.testbit (reg32 s BFLB_REG_WMER) 0) /\
  (forall i, i <> 0 ->
     Z.testbit (reg32 (run_ops ops s) BFLB_REG_WMER) i
     = Z.testbit (reg32 s BFLB_REG_WMER) i).
Proof.
  revert s. induction ops as [|o tl IH]; intros s.
  - split; [reflexivity | intros; reflexivity].
  - destruct (IH (exec (bflb_wdt_ops o) s)) as [IH0 IHi].
    split.
    + cbn [run_ops]. rewrite IH0, op_enable_bit.
      destruct o; reflexivity.
    + intros i Hi. cbn [run_ops]. rewrite IHi by exact Hi.
      apply op_mode_bit. exact Hi.
Qed.

Lemma op_fresh (prot : Z -> bool) (o : watchdog_op) (s : state) (ws : list io_event) :
  prot BFLB_REG_WFAR = false -> prot BFLB_REG_WSAR = false ->
  fresh_unlock prot ws (emitted (bflb_wdt_ops o) s) = true.
Proof.
  intros Ha Hb. destruct (op_emitted o s) as [vs Hv]. rewrite Hv.
  destruct o; cbn [op_target].
  - apply fresh_unlock_rmw; assumption.
  - apply fresh_unlock_rmw; assumption.
  - apply fresh_unlock_rmw; assumption.
  - apply fresh_unlock_write16; assumption.
  - reflexivity.
Qed.

Lemma probe_fresh (pdev : platform_device) (s : state) (ws : list io_event) :
  fresh_unlock wdt_reg ws (emitted (bflb_wdt_probe pdev) s) = true.
Proof.
  destruct (kzalloc_ok pdev && match ioremap_err pdev with
                               | None => true | Some _ => false end) eqn:Hp.
  - apply andb_true_iff in Hp. destruct Hp as [Hk Hm].
    destruct (ioremap_err pdev) as [e|] eqn:He; [discriminate|].
    rewrite (probe_emitted pdev s Hk He). reflexivity.
  - rewrite (probe_emitted_early pdev s Hp). reflexivity.
Qed.

Lemma run_ops_io (prot : Z -> bool) (ops : list watchdog_op) (s : state) :
  prot BFLB_REG_WFAR = false -> prot BFLB_REG_WSAR = false ->
  exists evs,
    io (run_ops ops s) = io s ++ evs /\
    forall ws, fresh_unlock prot ws evs = true.
Proof.
  intros Ha Hb. revert s. induction ops as [|o tl IH]; intros s.
  - exists []. split; [symmetry; apply app_nil_r | reflexivity].
  - destruct (IH (exec (bflb_wdt_ops o) s)) as (evs & Hio & Hfresh).
    exists (emitted (bflb_wdt_ops o) s ++ evs). split.
    + cbn [run_ops]. rewrite Hio, exec_io_emitted_op, app_assoc. reflexivity.
    + intros ws. rewrite fresh_unlock_app, op_fresh by assumption.
      apply Hfresh.
Qed.

(** X10. The unlock discipline holds of whole sessions, not only of single
    calls.  From power-on, the complete register trace of a probe followed by
    any sequence of calls through the operation table has a fresh unlock
    sequence directly before every write to a watchdog register.  The calls
    after the probe, whatever the writes before them were, keep the
    discipline also for the clock-select and pre-divider registers, which
    they never write. *)
Theorem session_trace_keeps_unlock_discipline
        (pdev : platform_device) (r : regfile) (ops : list watchdog_op)
        (s : state) (ws : list io_event) :
  fresh_unlock wdt_reg [] (io (run_ops ops (exec (bflb_wdt_probe pdev) (boot r))))
    = true /\
  fresh_unlock wdt_or_timer_reg ws (emitted_by_ops ops s) = true /\
  (forall e, In e (writes_of (emitted_by_ops ops s)) ->
             event_offset e <> BFLB_REG_TCCR /\ event_offset e <> BFLB_REG_TCDR).
Proof.
  split; [|split].
  - destruct (run_ops_io wdt_reg ops (exec (bflb_wdt_probe pdev) (boot r))
                         eq_refl eq_refl) as (evs & Hio & Hfresh).
    rewrite Hio.
    assert (Hp : io (exec (bflb_wdt_probe pdev) (boot r))
                 = emitted (bflb_wdt_probe pdev) (boot r))
      by (unfold emitted; reflexivity).
    rewrite Hp, fresh_unlock_app, probe_fresh. apply Hfresh.
  - destruct (run_ops_io wdt_or_timer_reg ops s eq_refl eq_refl)
      as (evs & Hio & Hfresh).
    unfold emitted_by_ops. rewrite Hio, skipn_length_app. apply Hfresh.
  - unfold emitted_by_ops. revert s.
    induction ops as [|o tl IH]; intros s e He.
    + cbn [run_ops] in He. rewrite <- (app_nil_r (io s)) in He at 2.
      rewrite skipn_length_app in He. contradiction.
    + destruct (run_ops_io wdt_reg tl (exec (bflb_wdt_ops o) s) eq_refl eq_refl)
        as (evs & Hio & _).
      specialize (IH (exec (bflb_wdt_ops o) s) e).
      rewrite Hio, skipn_length_app in IH.
      cbn [run_ops] in He.
      rewrite Hio, exec_io_emitted_op, <- app_assoc, skipn_length_app in He.
      unfold writes_of in He. rewrite filter_app in He.
      apply in_app_or in He. destruct He as [He|He]; [|apply IH; exact He].
      destruct (op_emitted o s) as [vs Hv]. rewrite Hv in He.
      destruct o; cbn in He;
        repeat (destruct He as [<-|He]; [split; discriminate|]);
        contradiction.
Qed.

(** *** How calls compose *)

Lemma op_regs (o : watchdog_op) (s : state) :
  regs (bflb_wdd (exec (bflb_wdt_ops o) s)) =
  let r := regs (bflb_wdd s) in
  match o with
  | op_start =>
      pokel (unlocked r) BFLB_REG_WMER (Z.lor (peekl r BFLB_REG_WMER) BFLB_VAL_WE)
  | op_stop =>
      pokel (unlocked r) BFLB_REG_WMER
            (Z.land (peekl r BFLB_REG_WMER) (to_u32 (Z.lnot BFLB_VAL_WE)))
  | op_ping =>
      pokel (unlocked r) BFLB_REG_WCR (Z.lor (peekl r BFLB_REG_WCR) BFLB_VAL_WCR)
  | op_set_timeout t =>
      pokew (unlocked r) BFLB_REG_WMR
            (Z.min t (max_timeout (wdd (bflb_wdd s))) * BFLB_TICKS_PER_SEC)
  | op_get_timeleft => r
  end.
Proof.
  destruct o; cbn [bflb_wdt_ops]; cbv zeta.
  - apply start_regs.
  - apply stop_regs.
  - apply ping_regs.
  - apply set_timeout_regs.
  - rewrite timeleft_bflb_wdd. reflexivity.
Qed.

Lemma op_max_timeout (o : watchdog_op) (s : state) :
  max_timeout (wdd (bflb_wdd (exec (bflb_wdt_ops o) s))) = max_timeout (wdd (bflb_wdd s)).
Proof. rewrite op_wdd. destruct o; reflexivity. Qed.

(** Brings the registers after two calls into terms of the registers
    before them. *)
Ltac two_calls o1 o2 s :=
  unfold reg32;
  rewrite (op_regs o2 (exec (bflb_wdt_ops o1) s));
  rewrite ?(op_max_timeout o1 s);
  rewrite (op_regs o1 s);
  cbv zeta.

(** X11. Start and stop absorb each other on the hardware: stop after stop,
    stop after start and start after stop leave every register, and the
    configuration, as the last call alone would. *)
Theorem start_stop_last_call_wins (s : state) (off : Z) :
  (reg32 (run_ops [op_stop; op_stop] s) off = reg32 (run_ops [op_stop] s) off /\
   reg32 (run_ops [op_start; op_stop] s) off = reg32 (run_ops [op_stop] s) off /\
   reg32 (run_ops [op_stop; op_start] s) off = reg32 (run_ops [op_start] s) off) /\
  (wdd (bflb_wdd (run_ops [op_stop; op_stop] s)) = wdd (bflb_wdd s) /\
   wdd (bflb_wdd (run_ops [op_start; op_stop] s)) = wdd (bflb_wdd s) /\
   wdd (bflb_wdd (run_ops [op_stop; op_start] s)) = wdd (bflb_wdd s)).
Proof.
  cbn [run_ops]. split.
  - split; [|split].
    + two_calls op_stop op_stop s.
      reg_cases off; peek_norm; try reflexivity; unfold peekl; by_bits i.
    + two_calls op_start op_stop s. rewrite (op_regs op_stop s). cbv zeta.
      reg_cases off; peek_norm; try reflexivity; unfold peekl; by_bits i.
    + two_calls op_stop op_start s. rewrite (op_regs op_start s). cbv zeta.
      reg_cases off; peek_norm; try reflexivity; unfold peekl; by_bits i.
  - rewrite !op_wdd. repeat split.
Qed.

(** X12. Calls that rewrite different registers commute: for two entries of
    the operation table with different targets (start or stop against ping
    or set_timeout, ping against set_timeout, get_timeleft against any
    other), either order leaves the same value in every register and the
    same configuration. *)
Theorem calls_on_different_registers_commute (o1 o2 : watchdog_op) (s : state) :
  op_target o1 <> op_target o2 ->
  (forall off, reg32 (run_ops [o1; o2] s) off = reg32 (run_ops [o2; o1] s) off) /\
  wdd (bflb_wdd (run_ops [o1; o2] s)) = wdd (bflb_wdd (run_ops [o2; o1] s)).
Proof.
  intros Hne. cbn [run_ops]. split.
  - intros off. two_calls o1 o2 s.
    rewrite (op_regs o1 (exec (bflb_wdt_ops o2) s)), ?(op_max_timeout o2 s),
      (op_regs o2 s).
    cbv zeta.
    destruct o1, o2; cbn [op_target] in Hne; try congruence;
      reg_cases off; peek_norm; try reflexivity; unfold peekl; by_bits i.
  - rewrite (op_wdd o2), (op_wdd o1 (exec (bflb_wdt_ops o2) s)).
    unfold cur_max_timeout. rewrite !op_max_timeout, !op_wdd.
    destruct o1, o2; cbn [op_target] in Hne; try congruence; reflexivity.
Qed.

Lemma calls_on_different_registers_commute_witness :
  op_target op_ping <> op_target (op_set_timeout 30) /\
  wdd (bflb_wdd (run_ops [op_ping; op_set_timeout 30] (probed hw_ones)))
  = wdd (bflb_wdd (run_ops [op_set_timeout 30; op_ping] (probed hw_ones))).
Proof.
  split; [discriminate|].
  destruct (calls_on_different_registers_commute
              op_ping (op_set_timeout 30) (probed hw_ones) ltac:(discriminate))
    as (_ & H).
  exact H.
Defined.

(** *** Remove *)

Lemma remove_run (s : state) :
  bflb_wdt_remove s =
  (0, mk_state (bflb_wdd s) (io s)
               (klog s ++ [mk_log LInfo "bflb_wdt_remove removed..." []])).
Proof. unfold bflb_wdt_remove. run_monad. reflexivity. Qed.

(** X13. [bflb_wdt_remove] only logs: it returns 0, makes no register access
    and leaves the register block and the configuration as they are.  In
    particular it does not stop the watchdog: after a start, the enable bit
    is still set when remove returns. *)
Theorem remove_does_not_stop_watchdog (s : state) :
  result bflb_wdt_remove s = 0 /\
  emitted bflb_wdt_remove s = [] /\
  bflb_wdd (exec bflb_wdt_remove s) = bflb_wdd s /\
  Z.testbit (reg32 (exec bflb_wdt_remove (exec bflb_wdt_start s)) BFLB_REG_WMER) 0
    = true.
Proof.
  split; [unfold result; rewrite remove_run; reflexivity|].
  split.
  { apply emitted_app. unfold exec. rewrite remove_run. simpl.
    symmetry. apply app_nil_r. }
  assert (H : forall st, bflb_wdd (exec bflb_wdt_remove st) = bflb_wdd st)
    by (intros st; unfold exec; rewrite remove_run; reflexivity).
  split; [apply H|].
  unfold reg32. rewrite H. fold (reg32 (exec bflb_wdt_start s) BFLB_REG_WMER).
  rewrite start_wmer_bit. reflexivity.
Qed.

(** *** Probing again *)

Lemma probe_final_regs (pdev : platform_device) (s : state) :
  kzalloc_ok pdev = true -> ioremap_err pdev = None ->
  regs (bflb_wdd (exec (bflb_wdt_probe pdev) s)) =
  let r1 := unlocked (regs (bflb_wdd s)) in
  let r2 := pokel r1 BFLB_REG_WMER (probe_wmer (peekl r1 BFLB_REG_WMER)) in
  let r3 := pokel r2 BFLB_REG_TCCR (probe_tccr (peekl r2 BFLB_REG_TCCR)) in
  let r4 := pokel r3 BFLB_REG_TCDR (probe_tcdr (peekl r3 BFLB_REG_TCDR)) in
  pokew (unlocked r4) BFLB_REG_WMR (to_u32 (BFLB_DEFAULT_TIMEOUT * BFLB_TICKS_PER_SEC)).
Proof.
  intros Hk Hm. unfold exec. rewrite probe_run_mapped by assumption. reflexivity.
Qed.

(** X14. Probing is idempotent on the hardware: a second successful probe
    of the same platform reads back what the first one wrote and writes the
    same values again, so every register and the whole configuration are
    exactly as the first probe left them, whatever the registers held
    before. *)
Theorem probe_twice_same_as_once
        (pdev : platform_device) (s : state) (off : Z) :
  kzalloc_ok pdev = true -> ioremap_err pdev = None ->
  let first := exec (bflb_wdt_probe pdev) s in
  let again := exec (bflb_wdt_probe pdev) first in
  reg32 again off = reg32 first off /\
  wdd (bflb_wdd again) = wdd (bflb_wdd first) /\
  writes_of (emitted (bflb_wdt_probe pdev) first)
    = writes_of (emitted (bflb_wdt_probe pdev) s).
Proof.
  intros Hk Hm. cbv zeta. split; [|split].
  - unfold reg32.
    rewrite (probe_final_regs pdev (exec (bflb_wdt_probe pdev) s)) by assumption.
    rewrite (probe_final_regs pdev s) by assumption. cbv zeta.
    destruct (Z.eq_dec off BFLB_REG_TCCR) as [->|?];
      [|destruct (Z.eq_dec off BFLB_REG_TCDR) as [->|?]; [|reg_cases off]];
      peek_norm; try reflexivity;
      unfold probe_wmer, probe_tccr, probe_tcdr, peekl; by_bits i.
  - rewrite !probe_wdd by assumption. reflexivity.
  - rewrite !probe_emitted by assumption.
    destruct (probe_regs pdev s Hk Hm) as (Hw & Hc & Hd & _).
    rewrite Hw, Hc, Hd. cbn [writes_of filter app unlock_events].
    assert (Ew : probe_wmer (probe_wmer (reg32 s BFLB_REG_WMER))
                 = probe_wmer (reg32 s BFLB_REG_WMER))
      by (unfold probe_wmer, reg32, peekl; by_bits i).
    assert (Ec : probe_tccr (probe_tccr (reg32 s BFLB_REG_TCCR))
                 = probe_tccr (reg32 s BFLB_REG_TCCR))
      by (unfold probe_tccr, reg32, peekl; by_bits i).
    assert (Ed : probe_tcdr (probe_tcdr (reg32 s BFLB_REG_TCDR))
                 = probe_tcdr (reg32 s BFLB_REG_TCDR))
      by (unfold probe_tcdr, reg32, peekl; by_bits i).
    rewrite Ew, Ec, Ed. reflexivity.
Qed.

Lemma probe_twice_same_as_once_witness :
  kzalloc_ok pdev_ok = true /\ ioremap_err pdev_ok = None /\
  reg32 (exec (bflb_wdt_probe pdev_ok) (exec (bflb_wdt_probe pdev_ok) (boot hw_ones)))
        BFLB_REG_WMER
  = reg32 (exec (bflb_wdt_probe pdev_ok) (boot hw_ones)) BFLB_REG_WMER.
Proof.
  split; [reflexivity|]. split; [reflexivity|].
  destruct (probe_twice_same_as_once pdev_ok (boot hw_ones) BFLB_REG_WMER
              eq_refl eq_refl) as (H & _).
  exact H.
Defined.
